(** * The element taxonomy of [unstructured/documents/elements.py]

    A shallow embedding of the element model (metadata, identity, the text
    categories, the cleaning pipeline and the type registry) and the
    properties the specification states about it.

    Python values are embedded as follows.
    - A [str] is the list of its code points ([pystr]); [str.encode()] is
      the strict UTF-8 encoder, which raises [UnicodeEncodeError] on a lone
      surrogate.
    - [hashlib.sha256] is SHA-256 as in FIPS 180-4, on bytes held in [N].
    - A raised exception is the [Raise] case of [outcome].
    - A [dict] is a [gmap] from its keys to [pyval]s.
    - A method that mutates [self] returns the element after the call
      together with the outcome of the call.
    - [float] and the comparison Python uses between two list items are the
      interface [PyFloat]: the code stores, compares and emits coordinates
      and never computes with them.
    - A metadata record is a value: the module has no operation that
      changes one after its construction, so the instance that the default
      arguments share stays the empty one. *)

From Stdlib Require Import NArith ZArith Lia Ascii String.
From stdpp Require Import gmap strings list.

Set Warnings "-register-all".

Local Open Scope N_scope.

(** ** Exceptions *)

Inductive exn : Type :=
| UnicodeEncodeError
| ValueError (msg : string)
| TypeError (msg : string)
| OtherError (name : string).

Inductive outcome (A : Type) : Type :=
| Ok (a : A)
| Raise (e : exn).

Arguments Ok {A} a.
Arguments Raise {A} e.

Definition bind {A B : Type} (m : outcome A) (k : A -> outcome B) : outcome B :=
  match m with
  | Ok a => k a
  | Raise e => Raise e
  end.

Notation "'let*' x ':=' m 'in' k" := (bind m (fun x => k))
  (at level 10, x name, m at level 200, k at level 200).

(** ** Strings *)

(** A Python [str]: its code points, each at most [0x10FFFF]. *)
Definition pystr : Type := list N.

Definition is_str (s : pystr) : Prop := Forall (fun c => c <= 0x10FFFF) s.

(** A code point that is not a surrogate. *)
Definition is_scalar (c : N) : Prop :=
  c < 0xD800 \/ (0xDFFF < c /\ c <= 0x10FFFF).

(** A string literal of the source, all of whose characters are ASCII. *)
Fixpoint lit (s : string) : pystr :=
  match s with
  | EmptyString => []
  | String a s' => N_of_ascii a :: lit s'
  end.

Definition str_eq (s t : pystr) : bool := bool_decide (s = t).

(** ** [str.encode()]: strict UTF-8 *)

Module Utf8.

Definition cont (c : N) (k : N) : N :=
  N.lor 0x80 (N.land (N.shiftr c (6 * k)) 0x3F).

Definition encode_cp (c : N) : outcome (list N) :=
  if c <? 0x80 then Ok [c]
  else if c <? 0x800 then Ok [N.lor 0xC0 (N.shiftr c 6); cont c 0]
  else if c <? 0x10000 then
    if (0xD800 <=? c) && (c <=? 0xDFFF) then Raise UnicodeEncodeError
    else Ok [N.lor 0xE0 (N.shiftr c 12); cont c 1; cont c 0]
  else if c <? 0x110000 then
    Ok [N.lor 0xF0 (N.shiftr c 18); cont c 2; cont c 1; cont c 0]
  else Raise UnicodeEncodeError.

Fixpoint encode (s : pystr) : outcome (list N) :=
  match s with
  | [] => Ok []
  | c :: s' =>
      let* bs := encode_cp c in
      let* rest := encode s' in
      Ok (bs ++ rest)
  end.

End Utf8.

(** ** [hashlib.sha256(...).hexdigest()] *)

Module Sha256.

Definition add32 (x y : N) : N := (x + y) mod 2 ^ 32.

Definition rotr (n x : N) : N :=
  N.lor (N.shiftr x n) (N.shiftl x (32 - n) mod 2 ^ 32).

Definition not32 (x : N) : N := N.lxor x 0xFFFFFFFF.

Definition Ch (x y z : N) : N :=
  N.lxor (N.land x y) (N.land (not32 x) z).

Definition Maj (x y z : N) : N :=
  N.lxor (N.lxor (N.land x y) (N.land x z)) (N.land y z).

Definition Sigma0 (x : N) : N :=
  N.lxor (N.lxor (rotr 2 x) (rotr 13 x)) (rotr 22 x).

Definition Sigma1 (x : N) : N :=
  N.lxor (N.lxor (rotr 6 x) (rotr 11 x)) (rotr 25 x).

Definition sigma0 (x : N) : N :=
  N.lxor (N.lxor (rotr 7 x) (rotr 18 x)) (N.shiftr x 3).

Definition sigma1 (x : N) : N :=
  N.lxor (N.lxor (rotr 17 x) (rotr 19 x)) (N.shiftr x 10).

(** The round constants: the first 32 bits of the fractional parts of the
    cube roots of the first 64 primes. *)
Definition K : list N :=
  0x428a2f98 :: 0x71374491 :: 0xb5c0fbcf :: 0xe9b5dba5 ::
  0x3956c25b :: 0x59f111f1 :: 0x923f82a4 :: 0xab1c5ed5 ::
  0xd807aa98 :: 0x12835b01 :: 0x243185be :: 0x550c7dc3 ::
  0x72be5d74 :: 0x80deb1fe :: 0x9bdc06a7 :: 0xc19bf174 ::
  0xe49b69c1 :: 0xefbe4786 :: 0x0fc19dc6 :: 0x240ca1cc ::
  0x2de92c6f :: 0x4a7484aa :: 0x5cb0a9dc :: 0x76f988da ::
  0x983e5152 :: 0xa831c66d :: 0xb00327c8 :: 0xbf597fc7 ::
  0xc6e00bf3 :: 0xd5a79147 :: 0x06ca6351 :: 0x14292967 ::
  0x27b70a85 :: 0x2e1b2138 :: 0x4d2c6dfc :: 0x53380d13 ::
  0x650a7354 :: 0x766a0abb :: 0x81c2c92e :: 0x92722c85 ::
  0xa2bfe8a1 :: 0xa81a664b :: 0xc24b8b70 :: 0xc76c51a3 ::
  0xd192e819 :: 0xd6990624 :: 0xf40e3585 :: 0x106aa070 ::
  0x19a4c116 :: 0x1e376c08 :: 0x2748774c :: 0x34b0bcb5 ::
  0x391c0cb3 :: 0x4ed8aa4a :: 0x5b9cca4f :: 0x682e6ff3 ::
  0x748f82ee :: 0x78a5636f :: 0x84c87814 :: 0x8cc70208 ::
  0x90befffa :: 0xa4506ceb :: 0xbef9a3f7 :: 0xc67178f2 :: [].

(** The eight working variables, also the chaining value between blocks. *)
Record state : Type := State {
  va : N; vb : N; vc : N; vd : N; ve : N; vf : N; vg : N; vh : N
}.

(** The initial hash value: the fractional parts of the square roots of
    the first eight primes. *)
Definition H0 : state :=
  State 0x6a09e667 0xbb67ae85 0x3c6ef372 0xa54ff53a
        0x510e527f 0x9b05688c 0x1f83d9ab 0x5be0cd19.

(** Padding: the byte [0x80], zero bytes up to 56 modulo 64, and the bit
    length as a 64-bit big-endian integer. *)
Definition be_bytes (n : nat) (x : N) : list N :=
  map (fun i => N.shiftr x (8 * N.of_nat i) mod 256) (rev (seq 0 n)).

Definition pad (msg : list N) : list N :=
  let len := N.of_nat (length msg) in
  let zeros := (64 - (len + 9) mod 64) mod 64 in
  msg ++ [0x80] ++ repeat 0 (N.to_nat zeros) ++ be_bytes 8 (8 * len).

Fixpoint be_words (bs : list N) : list N :=
  match bs with
  | b0 :: b1 :: b2 :: b3 :: rest =>
      N.lor (N.lor (N.shiftl b0 24) (N.shiftl b1 16))
            (N.lor (N.shiftl b2 8) b3) :: be_words rest
  | _ => []
  end.

(** The message schedule, grown from the 16 words of the block. *)
Fixpoint schedule (n : nat) (ws : list N) : list N :=
  match n with
  | O => ws
  | S n' =>
      let t := length ws in
      let w i := nth (t - i) ws 0 in
      schedule n'
        (ws ++ [add32 (add32 (sigma1 (w 2%nat)) (w 7%nat))
                      (add32 (sigma0 (w 15%nat)) (w 16%nat))])
  end.

Definition round (s : state) (kw : N * N) : state :=
  let t1 := add32 (add32 (add32 (vh s) (Sigma1 (ve s)))
                         (add32 (Ch (ve s) (vf s) (vg s)) (fst kw)))
                  (snd kw) in
  let t2 := add32 (Sigma0 (va s)) (Maj (va s) (vb s) (vc s)) in
  State (add32 t1 t2) (va s) (vb s) (vc s)
        (add32 (vd s) t1) (ve s) (vf s) (vg s).

Definition compress (h : state) (block : list N) : state :=
  let ws := schedule 48 (be_words block) in
  let s := fold_left round (combine K ws) h in
  State (add32 (va h) (va s)) (add32 (vb h) (vb s))
        (add32 (vc h) (vc s)) (add32 (vd h) (vd s))
        (add32 (ve h) (ve s)) (add32 (vf h) (vf s))
        (add32 (vg h) (vg s)) (add32 (vh h) (vh s)).

Fixpoint blocks (n : nat) (bs : list N) (h : state) : state :=
  match n with
  | O => h
  | S n' => blocks n' (skipn 64 bs) (compress h (firstn 64 bs))
  end.

Definition sha256 (msg : list N) : state :=
  let bs := pad msg in
  blocks (length bs / 64) bs H0.

(** Lowercase hexadecimal, eight digits per 32-bit word. *)
Definition hex_digit (d : N) : N :=
  if d <? 10 then 48 + d else 87 + d.

Definition word_hex (w : N) : pystr :=
  map (fun i => hex_digit (N.shiftr w (4 * N.of_nat i) mod 16))
      (rev (seq 0 8)).

Definition hexdigest (s : state) : pystr :=
  word_hex (va s) ++ word_hex (vb s) ++ word_hex (vc s) ++ word_hex (vd s) ++
  word_hex (ve s) ++ word_hex (vf s) ++ word_hex (vg s) ++ word_hex (vh s).

End Sha256.

(** ** Python values *)

(** Python's [float] objects, and the comparison that [list.__eq__] makes
    between two items, which in CPython is [x is y or x == y]. *)
Class PyFloat : Type := {
  float : Type;
  float_eq : float -> float -> bool
}.

Section Model.

Context `{F : PyFloat}.

Inductive pyval : Type :=
| VNone
| VBool (b : bool)
| VInt (z : Z)
| VFloat (x : float)
| VStr (s : pystr)
| VPath (p : pystr)
| VNoID
| VList (l : list pyval)
| VDict (d : gmap string pyval).

(** [v is None] and [isinstance(v, str)]. *)
Definition is_None (v : pyval) : bool :=
  match v with VNone => true | _ => false end.

Definition isinstance_str (v : pyval) : bool :=
  match v with VStr _ => true | _ => false end.

(** ** ElementMetadata *)

(** The three fields of the dataclass. Their annotations are not enforced,
    so each holds any value, [VNone] when absent. *)
Record ElementMetadata : Type := mkElementMetadata {
  filename : pyval;
  page_number : pyval;
  url : pyval
}.

(** [str(self.filename)] of a [pathlib.Path], held as [VPath] with its
    string form. *)
Definition ElementMetadata_post_init (self : ElementMetadata) : ElementMetadata :=
  match filename self with
  | VPath p => mkElementMetadata (VStr p) (page_number self) (url self)
  | _ => self
  end.

(** The constructor the dataclass generates; every argument defaults to
    [VNone]. *)
Definition ElementMetadata_init (filename page_number url : pyval) : ElementMetadata :=
  ElementMetadata_post_init (mkElementMetadata filename page_number url).

(** [ElementMetadata()], the default of every [metadata] argument. *)
Definition ElementMetadata_default : ElementMetadata :=
  ElementMetadata_init VNone VNone VNone.

(** [self.__dict__.items()], in field order. *)
Definition ElementMetadata_items (self : ElementMetadata) : list (string * pyval) :=
  [("filename"%string, filename self);
   ("page_number"%string, page_number self);
   ("url"%string, url self)].

Definition ElementMetadata_to_dict (self : ElementMetadata) : gmap string pyval :=
  list_to_map
    (filter (fun kv => is_None (snd kv) = false) (ElementMetadata_items self)).

Definition ElementMetadata_fields : gset string :=
  {[ "filename"%string; "page_number"%string; "url"%string ]}.

(** [cls] called with the items of [input_dict] as keyword arguments: a key
    that is not a field is an unexpected keyword argument; a field that is
    not a key takes its default. *)
Definition ElementMetadata_from_dict (input_dict : gmap string pyval)
  : outcome ElementMetadata :=
  if decide (dom input_dict ⊆ ElementMetadata_fields) then
    Ok (ElementMetadata_init
          (default VNone (input_dict !! "filename"%string))
          (default VNone (input_dict !! "page_number"%string))
          (default VNone (input_dict !! "url"%string)))
  else Raise (TypeError "__init__() got an unexpected keyword argument").

(** ** Element *)

(** [Union[str, NoID]]. *)
Inductive identifier : Type :=
| NoID
| Id (s : pystr).

Definition identifier_value (i : identifier) : pyval :=
  match i with NoID => VNoID | Id s => VStr s end.

Record Element : Type := mkElement {
  element_id : identifier;
  coordinates : option (list float);
  metadata : ElementMetadata
}.

Definition Element_init (element_id : identifier)
    (coordinates : option (list float)) (metadata : ElementMetadata) : Element :=
  mkElement element_id coordinates metadata.

Definition coordinates_value (c : option (list float)) : pyval :=
  match c with None => VNone | Some l => VList (map VFloat l) end.

Definition Element_to_dict (self : Element) : gmap string pyval :=
  list_to_map
    [("type"%string, VNone);
     ("coordinates"%string, coordinates_value (coordinates self));
     ("element_id"%string, identifier_value (element_id self));
     ("metadata"%string, VDict (ElementMetadata_to_dict (metadata self)))].

(** [==] on two [Optional[List[float]]]: two lists are equal when they have
    the same length and equal items; [None] equals only [None]. *)
Fixpoint list_eq (l1 l2 : list float) : bool :=
  match l1, l2 with
  | [], [] => true
  | x :: l1', y :: l2' => float_eq x y && list_eq l1' l2'
  | _, _ => false
  end.

Definition coordinates_eq (c1 c2 : option (list float)) : bool :=
  match c1, c2 with
  | None, None => true
  | Some l1, Some l2 => list_eq l1 l2
  | _, _ => false
  end.

(** ** CheckBox *)

Record CheckBox : Type := mkCheckBox {
  checkbox_element : Element;
  checked : bool
}.

Definition CheckBox_init (element_id : identifier)
    (coordinates : option (list float)) (checked : bool)
    (metadata : ElementMetadata) : CheckBox :=
  mkCheckBox (mkElement element_id coordinates metadata) checked.

Definition CheckBox_eq (self other : CheckBox) : bool :=
  Bool.eqb (checked self) (checked other)
  && coordinates_eq (coordinates (checkbox_element self))
                    (coordinates (checkbox_element other)).

Definition CheckBox_to_dict (self : CheckBox) : gmap string pyval :=
  list_to_map
    [("type"%string, VStr (lit "CheckBox"));
     ("checked"%string, VBool (checked self));
     ("coordinates"%string, coordinates_value (coordinates (checkbox_element self)));
     ("element_id"%string, identifier_value (element_id (checkbox_element self)));
     ("metadata"%string,
      VDict (ElementMetadata_to_dict (metadata (checkbox_element self))))].

(** ** Text and its subclasses *)

Inductive text_class : Type :=
| Text
| FigureCaption
| NarrativeText
| ListItem
| Title
| Address
| Image
| PageBreak.

(** The class attribute [category]. *)
Definition category (c : text_class) : string :=
  match c with
  | Text => "UncategorizedText"
  | FigureCaption => "FigureCaption"
  | NarrativeText => "NarrativeText"
  | ListItem => "ListItem"
  | Title => "Title"
  | Address => "Address"
  | Image => "Image"
  | PageBreak => "PageBreak"
  end.

Record TextElement : Type := mkTextElement {
  text_element : Element;
  class_of : text_class;
  text : pystr
}.

(** [Text.__init__], inherited by every subclass but [PageBreak]. The
    class of [self] is the argument [c]. *)
Definition Text_init (c : text_class) (text : pystr) (element_id : identifier)
    (coordinates : option (list float)) (metadata : ElementMetadata)
  : outcome TextElement :=
  let* element_id :=
    match element_id with
    | NoID =>
        let* bytes := Utf8.encode text in
        Ok (Id (take 32 (Sha256.hexdigest (Sha256.sha256 bytes))))
    | Id s => Ok (Id s)
    end in
  Ok (mkTextElement (Element_init element_id coordinates metadata) c text).

(** [all([...])]. *)
Definition all (l : list bool) : bool := forallb (fun b => b) l.

Definition Text_eq (self other : TextElement) : bool :=
  all [str_eq (text self) (text other);
       coordinates_eq (coordinates (text_element self))
                      (coordinates (text_element other));
       String.eqb (category (class_of self)) (category (class_of other))].

Definition Text_to_dict (self : TextElement) : gmap string pyval :=
  list_to_map
    [("element_id"%string, identifier_value (element_id (text_element self)));
     ("coordinates"%string, coordinates_value (coordinates (text_element self)));
     ("text"%string, VStr (text self));
     ("type"%string, VStr (lit (category (class_of self))));
     ("metadata"%string,
      VDict (ElementMetadata_to_dict (metadata (text_element self))))].

(** *** The cleaning pipeline *)

(** A cleaner is any callable: it receives whatever the previous one
    returned, and returns any value or raises. *)
Definition cleaner : Type := pyval -> outcome pyval.

(** The loop [for cleaner in cleaners: cleaned_text = cleaner(cleaned_text)]. *)
Fixpoint run_cleaners (cleaners : list cleaner) (cleaned_text : pyval)
  : outcome pyval :=
  match cleaners with
  | [] => Ok cleaned_text
  | cleaner :: rest =>
      let* cleaned_text := cleaner cleaned_text in
      run_cleaners rest cleaned_text
  end.

Definition set_text (self : TextElement) (s : pystr) : TextElement :=
  mkTextElement (text_element self) (class_of self) s.

(** [Text.apply]: the element after the call, and the call's outcome. *)
Definition Text_apply (self : TextElement) (cleaners : list cleaner)
  : TextElement * outcome unit :=
  match run_cleaners cleaners (VStr (text self)) with
  | Raise e => (self, Raise e)
  | Ok (VStr s) => (set_text self s, Ok tt)
  | Ok _ => (self, Raise (ValueError "Cleaner produced a non-string output."))
  end.

(** *** Markdown *)

(** [to_markdown], as each class overrides it. *)
Definition to_markdown (self : TextElement) : pystr :=
  match class_of self with
  | Text => lit "![](" ++ text self ++ lit ")"
  | FigureCaption => lit "![](" ++ text self ++ lit ")"
  | NarrativeText => text self
  | ListItem => lit "- " ++ text self
  | Title => lit "# " ++ text self
  | Address => text self
  | Image => []
  | PageBreak => [10; 10]
  end.

(** *** PageBreak *)

(** [PageBreak.__init__]: [super().__init__(text="<PAGE BREAK>")], so that
    [Text.__init__] runs with its own defaults for the other arguments. *)
Definition PageBreak_init (text : option pystr) (element_id : identifier)
    (coordinates : option (list float)) (metadata : ElementMetadata)
  : outcome TextElement :=
  Text_init PageBreak (lit "<PAGE BREAK>") NoID None ElementMetadata_default.

(** ** The type registry *)

Definition TYPE_TO_TEXT_ELEMENT_MAP : gmap string text_class :=
  list_to_map
    [("UncategorizedText"%string, Text);
     ("FigureCaption"%string, FigureCaption);
     ("NarrativeText"%string, NarrativeText);
     ("ListItem"%string, ListItem);
     ("BulletedText"%string, ListItem);
     ("Title"%string, Title);
     ("Address"%string, Address);
     ("Image"%string, Image);
     ("PageBreak"%string, PageBreak)].

(** Calling a class of the registry: the [__init__] that the class
    resolves to. *)
Definition construct (c : text_class) (text : pystr) (element_id : identifier)
    (coordinates : option (list float)) (metadata : ElementMetadata)
  : outcome TextElement :=
  match c with
  | PageBreak => PageBreak_init (Some text) element_id coordinates metadata
  | _ => Text_init c text element_id coordinates metadata
  end.

(** ** Cleaners *)

(** A function from strings to strings as a cleaner. Off strings it
    raises, here [TypeError] as [lambda s: s + suffix] does. *)
Definition str_cleaner (f : pystr -> pystr) : cleaner :=
  fun v =>
    match v with
    | VStr s => Ok (VStr (f s))
    | _ => Raise (TypeError "expected a string")
    end.

(** [lambda _: value]. *)
Definition returns (value : pyval) : cleaner := fun _ => Ok value.

(** A cleaner that raises whatever it is given. *)
Definition raises (e : exn) : cleaner := fun _ => Raise e.

(** [str.upper], on ASCII letters, and [lambda s: s + suffix]: the
    transforms of the specification's ordering example. *)
Definition upper (s : pystr) : pystr :=
  map (fun c => if (97 <=? c) && (c <=? 122) then c - 32 else c) s.

Definition append (suffix s : pystr) : pystr := s ++ suffix.

(** [Text(text)], every other argument at its default. *)
Definition Text_of (text : pystr) : outcome TextElement :=
  Text_init Text text NoID None ElementMetadata_default.

End Model.

(** Coordinates with integer values, which compare as integers: the
    instance of the closed examples. *)
Definition integer_coordinates : PyFloat :=
  {| float := Z; float_eq := Z.eqb |}.

(** ** Predicates of the statements *)

(** A character of a lowercase hexadecimal numeral: [0-9a-f]. *)
Definition is_lower_hex (c : N) : Prop :=
  (48 <= c /\ c <= 57) \/ (97 <= c /\ c <= 102).

(** The identifier [Text.__init__] derives from the bytes of a text. *)
Definition content_id (bytes : list N) : pystr :=
  take 32 (Sha256.hexdigest (Sha256.sha256 bytes)).

(** A field as the dictionary of its record holds it: no entry when it is
    [None]. *)
Definition entry `{F : PyFloat} (v : pyval) : option pyval :=
  if is_None v then None else Some v.

(** The transforms [cleaners], called in order from the value [v], each on
    what the one before it returned, all return, and [outs] are the values
    they return, one per transform. *)
Inductive outputs `{F : PyFloat} : list cleaner -> pyval -> list pyval -> Prop :=
| outputs_nil (v : pyval) : outputs [] v []
| outputs_cons (c : cleaner) (cs : list cleaner) (v v' : pyval)
    (outs : list pyval) :
    c v = Ok v' -> outputs cs v' outs -> outputs (c :: cs) v (v' :: outs).

(** Two coordinates match: both are absent, or both are lists of the same
    length whose items compare equal one by one. *)
Definition coordinates_match `{F : PyFloat} (c1 c2 : option (list float)) : Prop :=
  match c1, c2 with
  | None, None => True
  | Some l1, Some l2 => Forall2 (fun x y => float_eq x y = true) l1 l2
  | _, _ => False
  end.

(** A text of ASCII characters only. *)
Definition is_ascii (s : pystr) : Prop := Forall (fun c => c < 128) s.

(** * Properties *)

(** ** UTF-8 *)

Ltac cases_ltb :=
  repeat match goal with
  | |- context [N.ltb ?a ?b] => destruct (N.ltb_spec a b)
  | |- context [N.leb ?a ?b] => destruct (N.leb_spec a b)
  | H : context [N.ltb ?a ?b] |- _ => destruct (N.ltb_spec a b)
  | H : context [N.leb ?a ?b] |- _ => destruct (N.leb_spec a b)
  end.

Lemma encode_cp_scalar (c : N) :
  is_scalar c -> exists bs, Utf8.encode_cp c = Ok bs.
Proof.
  unfold is_scalar, Utf8.encode_cp. intros Hc.
  cases_ltb; simpl; eauto; lia.
Qed.

Lemma encode_cp_surrogate (c : N) :
  ~ is_scalar c -> Utf8.encode_cp c = Raise UnicodeEncodeError.
Proof.
  unfold is_scalar, Utf8.encode_cp. intros Hc.
  cases_ltb; simpl; try reflexivity; exfalso; apply Hc; lia.
Qed.

Lemma is_scalar_dec (c : N) : is_scalar c \/ ~ is_scalar c.
Proof.
  unfold is_scalar.
  destruct (N.ltb_spec c 0xD800); [left; lia |].
  destruct (N.ltb_spec 0xDFFF c); [| right; lia].
  destruct (N.leb_spec c 0x10FFFF); [left; lia | right; lia].
Qed.

(** [encode] returns the bytes of exactly the strings without surrogates. *)
Lemma encode_scalar (s : pystr) :
  Forall is_scalar s <-> exists bs, Utf8.encode s = Ok bs.
Proof.
  induction s as [| c s IH]; simpl.
  - split; [eauto | constructor].
  - split.
    + intros Hs. inversion Hs as [| ? ? Hc Hs']; subst.
      destruct (encode_cp_scalar c Hc) as [bs ->].
      apply IH in Hs' as [rest ->]. simpl. eauto.
    + intros [bs Hbs]. destruct (is_scalar_dec c) as [Hc | Hc].
      * constructor; [exact Hc |]. apply IH.
        destruct (Utf8.encode_cp c); [| discriminate].
        simpl in Hbs. destruct (Utf8.encode s); [eauto | discriminate].
      * rewrite (encode_cp_surrogate c Hc) in Hbs. discriminate.
Qed.

(** Otherwise it raises, and [UnicodeEncodeError] is all it raises. *)
Lemma encode_raises (s : pystr) (e : exn) :
  Utf8.encode s = Raise e -> e = UnicodeEncodeError.
Proof.
  induction s as [| c s IH]; simpl; [discriminate |].
  destruct (is_scalar_dec c) as [Hc | Hc].
  - destruct (encode_cp_scalar c Hc) as [bs ->]. simpl.
    destruct (Utf8.encode s); simpl; [discriminate |].
    intros [= <-]. apply IH. reflexivity.
  - rewrite (encode_cp_surrogate c Hc). simpl. congruence.
Qed.

Lemma encode_surrogate (s : pystr) :
  ~ Forall is_scalar s -> Utf8.encode s = Raise UnicodeEncodeError.
Proof.
  intros Hs. destruct (Utf8.encode s) as [bs | e] eqn:E.
  - exfalso. apply Hs, encode_scalar. eauto.
  - f_equal. eapply encode_raises, E.
Qed.

(** ** The shape of a digest *)

Lemma hex_digit_lower (d : N) : d < 16 -> is_lower_hex (Sha256.hex_digit d).
Proof.
  unfold is_lower_hex, Sha256.hex_digit. intros Hd.
  destruct (N.ltb_spec d 10); lia.
Qed.

Lemma word_hex_length (w : N) : length (Sha256.word_hex w) = 8%nat.
Proof. reflexivity. Qed.

Lemma word_hex_lower (w : N) : Forall is_lower_hex (Sha256.word_hex w).
Proof.
  unfold Sha256.word_hex. apply Forall_map, Forall_forall.
  intros i _. apply hex_digit_lower. apply N.mod_lt. discriminate.
Qed.

Lemma hexdigest_length (st : Sha256.state) :
  length (Sha256.hexdigest st) = 64%nat.
Proof.
  unfold Sha256.hexdigest. rewrite !length_app, !word_hex_length. reflexivity.
Qed.

Lemma hexdigest_lower (st : Sha256.state) :
  Forall is_lower_hex (Sha256.hexdigest st).
Proof.
  unfold Sha256.hexdigest. repeat (apply Forall_app; split); apply word_hex_lower.
Qed.

Lemma content_id_shape (bytes : list N) :
  length (content_id bytes) = 32%nat /\ Forall is_lower_hex (content_id bytes).
Proof.
  unfold content_id. split.
  - rewrite length_take, hexdigest_length. reflexivity.
  - apply Forall_take, hexdigest_lower.
Qed.

(** The implementation on the test vectors of FIPS 180-4 and on messages
    around the padding boundaries. *)
Example sha256_empty :
  Sha256.hexdigest (Sha256.sha256 []) =
  lit "e3b0c44298fc1c149afbf4c8996fb92427ae41e4649b934ca495991b7852b855".
Proof. vm_compute. reflexivity. Qed.

Example sha256_abc :
  Sha256.hexdigest (Sha256.sha256 (lit "abc")) =
  lit "ba7816bf8f01cfea414140de5dae2223b00361a396177a9cb410ff61f20015ad".
Proof. vm_compute. reflexivity. Qed.

Example sha256_two_blocks :
  Sha256.hexdigest (Sha256.sha256
    (lit "abcdbcdecdefdefgefghfghighijhijkijkljklmklmnlmnomnopnopq")) =
  lit "248d6a61d20638b8e5c026930c3e6039a33ce45964ff2167f6ecedd419db06c1".
Proof. vm_compute. reflexivity. Qed.

Example sha256_55_bytes :
  Sha256.hexdigest (Sha256.sha256 (repeat 97 55)) =
  lit "9f4390f8d30c2dd92ec9f095b65e2b9ae9b0a925a5258e241c9f1e910f734318".
Proof. vm_compute. reflexivity. Qed.

Example sha256_64_bytes :
  Sha256.hexdigest (Sha256.sha256 (repeat 97 64)) =
  lit "ffe054fe7ae0cb6dc65c3af9b61d5209f439851db43d0ba5997337df154668eb".
Proof. vm_compute. reflexivity. Qed.

Example encode_all_lengths :
  Utf8.encode [104; 233; 0x20AC; 0x1F600] =
  Ok [104; 195; 169; 226; 130; 172; 240; 159; 152; 128].
Proof. reflexivity. Qed.

Section Properties.

Context `{F : PyFloat}.

(** ** Identity *)

Lemma Text_init_explicit (c : text_class) (s i : pystr)
    (co : option (list float)) (m : ElementMetadata) :
  Text_init c s (Id i) co m = Ok (mkTextElement (mkElement (Id i) co m) c s).
Proof. reflexivity. Qed.

Lemma Text_init_derived (c : text_class) (s : pystr) (bytes : list N)
    (co : option (list float)) (m : ElementMetadata) :
  Utf8.encode s = Ok bytes ->
  Text_init c s NoID co m =
  Ok (mkTextElement (mkElement (Id (content_id bytes)) co m) c s).
Proof. intros E. unfold Text_init. rewrite E. reflexivity. Qed.

Lemma Text_init_raises (c : text_class) (s : pystr) (e : exn)
    (co : option (list float)) (m : ElementMetadata) :
  Utf8.encode s = Raise e -> Text_init c s NoID co m = Raise e.
Proof. intros E. unfold Text_init. rewrite E. reflexivity. Qed.

(** What [Text.__init__] leaves in the element, whatever the identifier. *)
Lemma Text_init_fields (c : text_class) (s : pystr) (i : identifier)
    (co : option (list float)) (m : ElementMetadata) (e : TextElement) :
  Text_init c s i co m = Ok e ->
  text e = s /\ class_of e = c /\
  coordinates (text_element e) = co /\ metadata (text_element e) = m.
Proof.
  destruct i as [| x].
  - destruct (Utf8.encode s) as [bytes | err] eqn:E.
    + rewrite (Text_init_derived _ _ _ _ _ E). intros [= <-]. auto.
    + rewrite (Text_init_raises _ _ _ _ _ E). discriminate.
  - rewrite Text_init_explicit. intros [= <-]. auto.
Qed.

(** C1 (as amended). For every string [s] that has a UTF-8 encoding, that
    is, holds no surrogate code point, [Text.__init__] with text [s] and no
    explicit identifier succeeds and assigns the first 32 characters of the
    lowercase hexadecimal SHA-256 digest of the encoded text: 32 characters
    of [0-9a-f]. On any other string the constructor raises
    [UnicodeEncodeError]. Two elements constructed with the same text and no
    explicit identifier receive the same identifier, whatever their class,
    coordinates and metadata; an explicit string identifier is kept
    unchanged, and then the text is not encoded at all. *)
Theorem Text_init_identifier (c c' : text_class) (s i : pystr)
    (co co' : option (list float)) (m m' : ElementMetadata) :
  (Forall is_scalar s ->
   exists bytes e,
     Utf8.encode s = Ok bytes /\
     Text_init c s NoID co m = Ok e /\
     element_id (text_element e) =
       Id (take 32 (Sha256.hexdigest (Sha256.sha256 bytes))) /\
     length (take 32 (Sha256.hexdigest (Sha256.sha256 bytes))) = 32%nat /\
     Forall is_lower_hex (take 32 (Sha256.hexdigest (Sha256.sha256 bytes)))) /\
  (~ Forall is_scalar s ->
   Text_init c s NoID co m = Raise UnicodeEncodeError) /\
  (forall e e',
     Text_init c s NoID co m = Ok e ->
     Text_init c' s NoID co' m' = Ok e' ->
     element_id (text_element e) = element_id (text_element e')) /\
  (exists e,
     Text_init c s (Id i) co m = Ok e /\
     element_id (text_element e) = Id i).
Proof.
  repeat split.
  - intros Hs. apply encode_scalar in Hs as [bytes E].
    exists bytes. eexists. split; [exact E |].
    split; [apply Text_init_derived, E |].
    split; [reflexivity |]. apply (content_id_shape bytes).
  - intros Hs. apply Text_init_raises, encode_surrogate, Hs.
  - intros e e'. destruct (Utf8.encode s) as [bytes | err] eqn:E.
    + rewrite !(Text_init_derived _ _ _ _ _ E).
      intros [= <-] [= <-]. reflexivity.
    + rewrite (Text_init_raises _ _ _ _ _ E). discriminate.
  - eexists. split; [apply Text_init_explicit | reflexivity].
Qed.

Lemma Text_of_abc :
  Text_of (lit "abc") =
  Ok (mkTextElement
        (mkElement (Id (lit "ba7816bf8f01cfea414140de5dae2223")) None
                   ElementMetadata_default)
        Text (lit "abc")).
Proof.
  unfold Text_of.
  rewrite (Text_init_derived _ _ (lit "abc")) by reflexivity.
  replace (content_id (lit "abc"))
    with (lit "ba7816bf8f01cfea414140de5dae2223")
    by (vm_compute; reflexivity).
  reflexivity.
Qed.

(** ** The cleaning pipeline *)

Lemma run_cleaners_app (cs1 cs2 : list cleaner) (v : pyval) :
  run_cleaners (cs1 ++ cs2) v =
  let* v' := run_cleaners cs1 v in run_cleaners cs2 v'.
Proof.
  revert v. induction cs1 as [| c cs1 IH]; intros v; simpl; [reflexivity |].
  destruct (c v) as [v' | e]; simpl; [apply IH | reflexivity].
Qed.

(** Cleaners that map strings to strings run as the left-to-right
    composition of their functions. *)
Lemma run_str_cleaners (fs : list (pystr -> pystr)) (s : pystr) :
  run_cleaners (map str_cleaner fs) (VStr s) =
  Ok (VStr (fold_left (fun t f => f t) fs s)).
Proof.
  revert s. induction fs as [| f fs IH]; intros s; simpl; [reflexivity |].
  apply IH.
Qed.

(** The three ways [Text.apply] ends, by what the loop produced. *)
Lemma Text_apply_cases (self : TextElement) (cleaners : list cleaner) :
  match run_cleaners cleaners (VStr (text self)) with
  | Raise e => Text_apply self cleaners = (self, Raise e)
  | Ok v =>
      if isinstance_str v then
        exists s, v = VStr s /\ Text_apply self cleaners = (set_text self s, Ok tt)
      else
        Text_apply self cleaners =
        (self, Raise (ValueError "Cleaner produced a non-string output."))
  end.
Proof.
  unfold Text_apply.
  destruct (run_cleaners cleaners (VStr (text self))) as [v | e];
    [destruct v; simpl; eauto | reflexivity].
Qed.

(** [Text.apply] writes the text and nothing else, on every path. *)
Lemma Text_apply_frame (self : TextElement) (cleaners : list cleaner) :
  text_element (fst (Text_apply self cleaners)) = text_element self /\
  class_of (fst (Text_apply self cleaners)) = class_of self.
Proof.
  pose proof (Text_apply_cases self cleaners) as Hc.
  destruct (run_cleaners cleaners (VStr (text self))) as [v | e].
  - destruct (isinstance_str v).
    + destruct Hc as (s & _ & ->). split; reflexivity.
    + rewrite Hc. split; reflexivity.
  - rewrite Hc. split; reflexivity.
Qed.

(** C2. [Text.apply] never touches the identifier: after the call, whether
    it succeeded or raised, the element has the identifier, coordinates,
    metadata and class it had before. For an element that [Text.__init__]
    built, that identifier is the explicit one, or else the one derived from
    the text given to the constructor, whatever the text is now. *)
Theorem apply_keeps_identifier (self : TextElement) (cleaners : list cleaner) :
  element_id (text_element (fst (Text_apply self cleaners))) =
    element_id (text_element self) /\
  text_element (fst (Text_apply self cleaners)) = text_element self /\
  class_of (fst (Text_apply self cleaners)) = class_of self /\
  (forall c s i co m,
     Text_init c s i co m = Ok self ->
     match i with
     | Id x =>
         element_id (text_element (fst (Text_apply self cleaners))) = Id x
     | NoID =>
         exists bytes,
           Utf8.encode s = Ok bytes /\
           element_id (text_element (fst (Text_apply self cleaners))) =
             Id (take 32 (Sha256.hexdigest (Sha256.sha256 bytes)))
     end).
Proof.
  destruct (Text_apply_frame self cleaners) as [Hframe Hclass].
  split; [rewrite Hframe; reflexivity |].
  split; [exact Hframe |].
  split; [exact Hclass |].
  intros c s i co m Hinit. rewrite Hframe. destruct i as [| x].
  - destruct (Utf8.encode s) as [bytes | err] eqn:E.
    + rewrite (Text_init_derived _ _ _ _ _ E) in Hinit.
      injection Hinit as <-. exists bytes. split; reflexivity.
    + rewrite (Text_init_raises _ _ _ _ _ E) in Hinit. discriminate.
  - rewrite Text_init_explicit in Hinit. injection Hinit as <-. reflexivity.
Qed.

Lemma last_cons_default {A : Type} (l : list A) (x d d' : A) :
  List.last (x :: l) d = List.last (x :: l) d'.
Proof.
  revert x. induction l as [| y l IH]; intros x; [reflexivity |].
  change (List.last (y :: l) d = List.last (y :: l) d'). apply IH.
Qed.

(** The loop over transforms that all return: its value is the last
    output, or the starting value when there is no transform. *)
Lemma run_cleaners_outputs (cleaners : list cleaner) (v : pyval)
    (outs : list pyval) :
  outputs cleaners v outs ->
  run_cleaners cleaners v = Ok (List.last outs v).
Proof.
  induction 1 as [v | c cs v v' outs Hc _ IH]; simpl; [reflexivity |].
  rewrite Hc. simpl. rewrite IH.
  destruct outs as [| p outs]; [reflexivity |].
  f_equal. apply last_cons_default.
Qed.

(** The loop stops at the first transform that raises. *)
Lemma run_cleaners_raises (front rest : list cleaner) (c : cleaner)
    (v : pyval) (outs : list pyval) (e : exn) :
  outputs front v outs ->
  c (List.last outs v) = Raise e ->
  run_cleaners (front ++ c :: rest) v = Raise e.
Proof.
  intros Hfront Hc. rewrite run_cleaners_app.
  rewrite (run_cleaners_outputs _ _ _ Hfront). simpl. rewrite Hc. reflexivity.
Qed.

(** Either every transform returns, or there is a first one that raises. *)
Lemma outputs_or_raises (cleaners : list cleaner) (v : pyval) :
  (exists outs, outputs cleaners v outs) \/
  (exists front c rest outs e,
     cleaners = front ++ c :: rest /\
     outputs front v outs /\
     c (List.last outs v) = Raise e).
Proof.
  revert v. induction cleaners as [| c cs IH]; intros v.
  - left. exists []. constructor.
  - destruct (c v) as [v' | e] eqn:Hc.
    + destruct (IH v') as [[outs Houts] | (front & c' & rest & outs & e & -> & Hf & Hr)].
      * left. exists (v' :: outs). constructor; assumption.
      * right. exists (c :: front), c', rest, (v' :: outs), e.
        split; [reflexivity |]. split; [constructor; assumption |].
        destruct outs as [| p outs]; [exact Hr |].
        change (c' (List.last (p :: outs) v) = Raise e).
        rewrite (last_cons_default outs p v v'). exact Hr.
    + right. exists [], c, cs, [], e. repeat split; [constructor | exact Hc].
Qed.

(** C4 (as amended). [Text.apply] validates the value the whole chain
    produced, after the loop, and nothing before it. Each transform is
    called on what the one before it returned, string or not. When every
    transform returns and the last output is not a string, the call raises
    the validation error; when the last output is a string the call
    succeeds and that string is the new text, whatever the outputs before
    it were, so a transform in the middle that returns [None] goes
    unnoticed if the next one accepts it. When a transform raises, the call
    raises that exception, the transforms after it are not called, and the
    element is as it was. One of these cases always applies. *)
Theorem apply_validates_final_output (self : TextElement)
    (cleaners : list cleaner) :
  (forall v,
     run_cleaners cleaners (VStr (text self)) = Ok v ->
     isinstance_str v = false ->
     snd (Text_apply self cleaners) =
     Raise (ValueError "Cleaner produced a non-string output.")) /\
  (forall front last v v',
     cleaners = front ++ [last] ->
     run_cleaners front (VStr (text self)) = Ok v ->
     last v = Ok v' ->
     isinstance_str v' = false ->
     snd (Text_apply self cleaners) =
     Raise (ValueError "Cleaner produced a non-string output.")) /\
  (forall s,
     run_cleaners cleaners (VStr (text self)) = Ok (VStr s) ->
     snd (Text_apply self cleaners) = Ok tt) /\
  (forall e,
     run_cleaners cleaners (VStr (text self)) = Raise e ->
     snd (Text_apply self cleaners) = Raise e) /\
  (forall outs,
     outputs cleaners (VStr (text self)) outs ->
     isinstance_str (List.last outs (VStr (text self))) = false ->
     Text_apply self cleaners =
     (self, Raise (ValueError "Cleaner produced a non-string output."))) /\
  (forall outs s,
     outputs cleaners (VStr (text self)) outs ->
     List.last outs (VStr (text self)) = VStr s ->
     Text_apply self cleaners = (set_text self s, Ok tt)) /\
  (forall (f g : cleaner) v s,
     cleaners = [f; g] ->
     f (VStr (text self)) = Ok v ->
     g v = Ok (VStr s) ->
     Text_apply self cleaners = (set_text self s, Ok tt)) /\
  (forall front c rest outs e,
     cleaners = front ++ c :: rest ->
     outputs front (VStr (text self)) outs ->
     c (List.last outs (VStr (text self))) = Raise e ->
     Text_apply self cleaners = (self, Raise e)) /\
  ((exists outs, outputs cleaners (VStr (text self)) outs) \/
   (exists front c rest outs e,
      cleaners = front ++ c :: rest /\
      outputs front (VStr (text self)) outs /\
      c (List.last outs (VStr (text self))) = Raise e)).
Proof.
  pose proof (Text_apply_cases self cleaners) as Hc.
  assert (Hfinal : forall v,
     run_cleaners cleaners (VStr (text self)) = Ok v ->
     isinstance_str v = false ->
     Text_apply self cleaners =
     (self, Raise (ValueError "Cleaner produced a non-string output."))).
  { intros v Hv Hstr. rewrite Hv, Hstr in Hc. exact Hc. }
  assert (Hgood : forall s,
     run_cleaners cleaners (VStr (text self)) = Ok (VStr s) ->
     Text_apply self cleaners = (set_text self s, Ok tt)).
  { intros s Hs. rewrite Hs in Hc. simpl in Hc.
    destruct Hc as (s' & [= <-] & Hs'). exact Hs'. }
  assert (Hraise : forall e,
     run_cleaners cleaners (VStr (text self)) = Raise e ->
     Text_apply self cleaners = (self, Raise e)).
  { intros e He. rewrite He in Hc. exact Hc. }
  split; [intros v Hv Hstr; rewrite (Hfinal v Hv Hstr); reflexivity |].
  split.
  { intros front last v v' -> Hfront Hlast Hstr.
    rewrite (Hfinal v'); [reflexivity | | exact Hstr].
    rewrite run_cleaners_app, Hfront. simpl. rewrite Hlast. reflexivity. }
  split; [intros s Hs; rewrite (Hgood s Hs); reflexivity |].
  split; [intros e He; rewrite (Hraise e He); reflexivity |].
  split.
  { intros outs Houts Hstr. eapply Hfinal; [| exact Hstr].
    apply run_cleaners_outputs, Houts. }
  split.
  { intros outs s Houts Hlast. apply Hgood.
    rewrite (run_cleaners_outputs _ _ _ Houts), Hlast. reflexivity. }
  split.
  { intros f g v s -> Hf Hg. apply Hgood. simpl.
    rewrite Hf. simpl. rewrite Hg. reflexivity. }
  split.
  { intros front c rest outs e -> Hfront Hraises. apply Hraise.
    eapply run_cleaners_raises; eassumption. }
  apply outputs_or_raises.
Qed.

(** C5. A successful [Text.apply] leaves as text the value the transforms
    produce when run left to right from the current text, each on the
    output of the one before, and changes nothing else; when the call
    raises, with the validation error or with a transform's own exception,
    the element is as it was. For transforms that are functions from
    strings to strings the call always succeeds, and the new text is
    [fn (... (f2 (f1 t)))]. *)
Theorem apply_composes (self : TextElement) (cleaners : list cleaner) :
  (forall self',
     Text_apply self cleaners = (self', Ok tt) ->
     run_cleaners cleaners (VStr (text self)) = Ok (VStr (text self')) /\
     self' = set_text self (text self')) /\
  (forall self' e,
     Text_apply self cleaners = (self', Raise e) -> self' = self) /\
  (forall fs : list (pystr -> pystr),
     cleaners = map str_cleaner fs ->
     Text_apply self cleaners =
     (set_text self (fold_left (fun t f => f t) fs (text self)), Ok tt)).
Proof.
  pose proof (Text_apply_cases self cleaners) as Hc.
  split; [| split].
  - intros self' Happly.
    destruct (run_cleaners cleaners (VStr (text self))) as [v | e].
    + destruct (isinstance_str v).
      * destruct Hc as (s & -> & Hs). rewrite Hs in Happly.
        injection Happly as <-. split; reflexivity.
      * rewrite Hc in Happly. discriminate.
    + rewrite Hc in Happly. discriminate.
  - intros self' e Happly.
    destruct (run_cleaners cleaners (VStr (text self))) as [v | e'].
    + destruct (isinstance_str v).
      * destruct Hc as (s & _ & Hs). rewrite Hs in Happly. discriminate.
      * rewrite Hc in Happly. injection Happly as <- _. reflexivity.
    + rewrite Hc in Happly. injection Happly as <- _. reflexivity.
  - intros fs ->. unfold Text_apply. rewrite run_str_cleaners. reflexivity.
Qed.

(** ** PageBreak *)

Lemma encode_page_break :
  Utf8.encode (lit "<PAGE BREAK>") = Ok (lit "<PAGE BREAK>").
Proof. reflexivity. Qed.

Lemma page_break_id :
  content_id (lit "<PAGE BREAK>") = lit "5ea24028ea5addabb8f07dfff681501d".
Proof. vm_compute. reflexivity. Qed.

Lemma PageBreak_init_value (t : option pystr) (i : identifier)
    (co : option (list float)) (m : ElementMetadata) :
  PageBreak_init t i co m =
  Ok (mkTextElement
        (mkElement (Id (lit "5ea24028ea5addabb8f07dfff681501d")) None
                   (mkElementMetadata VNone VNone VNone))
        PageBreak (lit "<PAGE BREAK>")).
Proof.
  unfold PageBreak_init.
  rewrite (Text_init_derived _ _ _ _ _ encode_page_break), page_break_id.
  reflexivity.
Qed.

(** C3. Whatever text, identifier, coordinates and metadata are passed,
    [PageBreak.__init__] builds the element it builds from no argument at
    all: its text is the literal [<PAGE BREAK>], its class is [PageBreak],
    its coordinates are absent and its metadata are the empty default. *)
Theorem PageBreak_init_discards (t : option pystr) (i : identifier)
    (co : option (list float)) (m : ElementMetadata) :
  PageBreak_init t i co m =
    PageBreak_init None NoID None ElementMetadata_default /\
  exists e,
    PageBreak_init t i co m = Ok e /\
    text e = lit "<PAGE BREAK>" /\
    class_of e = PageBreak /\
    category (class_of e) = "PageBreak"%string /\
    coordinates (text_element e) = None /\
    metadata (text_element e) = ElementMetadata_default /\
    (forall x, i = Id x -> x <> lit "5ea24028ea5addabb8f07dfff681501d" ->
               element_id (text_element e) <> i).
Proof.
  split.
  - rewrite !PageBreak_init_value. reflexivity.
  - eexists. split; [apply PageBreak_init_value |].
    simpl. repeat split; try reflexivity.
    intros x -> Hx [= E]. apply Hx. symmetry. exact E.
Qed.

(** After [Text.apply] an element is what it was, with the text the call
    left. *)
Lemma Text_apply_set_text (self : TextElement) (cleaners : list cleaner) :
  fst (Text_apply self cleaners) =
  set_text self (text (fst (Text_apply self cleaners))).
Proof.
  destruct (Text_apply_frame self cleaners) as [Hframe Hclass].
  destruct (fst (Text_apply self cleaners)) as [el cl tx]. simpl in *.
  subst. reflexivity.
Qed.

Lemma Text_to_dict_text (e : TextElement) :
  Text_to_dict e !! "text"%string = Some (VStr (text e)).
Proof.
  unfold Text_to_dict. cbn [list_to_map foldr uncurry fst snd].
  rewrite lookup_insert_ne by discriminate.
  rewrite lookup_insert_ne by discriminate.
  apply lookup_insert_eq.
Qed.

(** C10 (as amended). Every [PageBreak] instance, whatever arguments its
    constructor was given, carries the identifier
    [5ea24028ea5addabb8f07dfff681501d], the first 32 hexadecimal characters
    of the SHA-256 digest of [<PAGE BREAK>], no coordinates and the empty
    default metadata, and keeps them through any [Text.apply]. Any two
    instances are, as constructed, the same value: they compare equal, and
    their dictionary and markdown forms coincide. After calls of the
    inherited [Text.apply] their markdown forms still coincide, and they
    compare equal, and have the same dictionary form, exactly when the
    calls left the same text. *)
Theorem PageBreak_instances_alike (t t' : option pystr) (i i' : identifier)
    (co co' : option (list float)) (m m' : ElementMetadata) :
  exists e e',
    PageBreak_init t i co m = Ok e /\
    PageBreak_init t' i' co' m' = Ok e' /\
    Utf8.encode (lit "<PAGE BREAK>") = Ok (lit "<PAGE BREAK>") /\
    element_id (text_element e) = Id (lit "5ea24028ea5addabb8f07dfff681501d") /\
    Id (lit "5ea24028ea5addabb8f07dfff681501d") =
      Id (take 32 (Sha256.hexdigest (Sha256.sha256 (lit "<PAGE BREAK>")))) /\
    coordinates (text_element e) = None /\
    metadata (text_element e) = ElementMetadata_default /\
    ElementMetadata_to_dict (metadata (text_element e)) = ∅ /\
    e = e' /\
    Text_eq e e' = true /\
    Text_to_dict e = Text_to_dict e' /\
    to_markdown e = to_markdown e' /\
    to_markdown e = [10; 10] /\
    (forall cleaners,
       text_element (fst (Text_apply e cleaners)) = text_element e /\
       to_markdown (fst (Text_apply e cleaners)) = [10; 10]) /\
    (forall cleaners cleaners',
       (Text_eq (fst (Text_apply e cleaners)) (fst (Text_apply e' cleaners'))
          = true <->
        text (fst (Text_apply e cleaners)) =
        text (fst (Text_apply e' cleaners'))) /\
       (Text_to_dict (fst (Text_apply e cleaners)) =
        Text_to_dict (fst (Text_apply e' cleaners')) <->
        text (fst (Text_apply e cleaners)) =
        text (fst (Text_apply e' cleaners'))) /\
       to_markdown (fst (Text_apply e cleaners)) =
       to_markdown (fst (Text_apply e' cleaners'))).
Proof.
  do 2 eexists.
  split; [apply PageBreak_init_value |].
  split; [apply PageBreak_init_value |].
  split; [exact encode_page_break |].
  split; [reflexivity |].
  split; [cbn [text_element element_id]; rewrite <- page_break_id; reflexivity |].
  do 8 (split; [reflexivity |]).
  split.
  - intros cleaners.
    match goal with
    | |- context [Text_apply ?e cleaners] =>
        destruct (Text_apply_frame e cleaners) as [Hframe Hclass]
    end.
    split; [exact Hframe |]. unfold to_markdown. rewrite Hclass. reflexivity.
  - intros cleaners cleaners'.
    match goal with
    | |- context [Text_apply ?e cleaners] =>
        rewrite (Text_apply_set_text e cleaners);
        rewrite (Text_apply_set_text e cleaners');
        generalize (text (fst (Text_apply e cleaners)));
        generalize (text (fst (Text_apply e cleaners')))
    end.
    intros tb ta. cbn [set_text text text_element class_of].
    split; [| split; [| reflexivity]].
    + unfold Text_eq, all.
      cbn [text text_element class_of coordinates coordinates_eq forallb category].
      change (String.eqb "PageBreak" "PageBreak") with true.
      rewrite !andb_true_r. unfold str_eq. apply bool_decide_eq_true.
    + split.
      * intros Hd. apply (f_equal (fun d => d !! "text"%string)) in Hd.
        rewrite !Text_to_dict_text in Hd. unfold set_text in Hd.
        cbn [text] in Hd. congruence.
      * intros ->. reflexivity.
Qed.

(** ** Metadata *)

Lemma is_None_true (v : pyval) : is_None v = true <-> v = VNone.
Proof. destruct v; simpl; split; congruence. Qed.

Lemma is_None_false (v : pyval) : is_None v = false <-> v <> VNone.
Proof. destruct v; simpl; split; congruence. Qed.

Lemma default_entry (v : pyval) : default VNone (entry v) = v.
Proof. unfold entry. destruct v; reflexivity. Qed.

(** The dictionary of a record, key by key. *)
Lemma ElementMetadata_to_dict_lookup (m : ElementMetadata) (k : string) :
  ElementMetadata_to_dict m !! k =
  if decide (k = "filename"%string) then entry (filename m)
  else if decide (k = "page_number"%string) then entry (page_number m)
  else if decide (k = "url"%string) then entry (url m)
  else None.
Proof.
  unfold ElementMetadata_to_dict, ElementMetadata_items, entry.
  rewrite !filter_cons, filter_nil. simpl.
  destruct (is_None (filename m)), (is_None (page_number m)),
    (is_None (url m));
    repeat case_decide; subst; try congruence; simpl;
    repeat first
      [ rewrite lookup_insert_eq
      | rewrite lookup_insert_ne by congruence
      | rewrite lookup_empty ];
    reflexivity.
Qed.

Lemma ElementMetadata_to_dict_dom (m : ElementMetadata) :
  dom (ElementMetadata_to_dict m) ⊆ ElementMetadata_fields.
Proof.
  intros k Hk. apply elem_of_dom in Hk as [v Hv].
  rewrite ElementMetadata_to_dict_lookup in Hv.
  unfold ElementMetadata_fields.
  repeat case_decide; subst; [set_solver .. | discriminate].
Qed.

(** The constructor leaves no path in [filename], and is the identity on
    such a record. *)
Lemma ElementMetadata_init_filename (f p u : pyval) (x : pystr) :
  filename (ElementMetadata_init f p u) <> VPath x.
Proof. destruct f; discriminate. Qed.

Lemma ElementMetadata_init_idem (m : ElementMetadata) :
  (forall x, filename m <> VPath x) ->
  ElementMetadata_init (filename m) (page_number m) (url m) = m.
Proof.
  destruct m as [f p u]. simpl. intros Hf.
  destruct f; try reflexivity. exfalso. eapply Hf. reflexivity.
Qed.

Lemma ElementMetadata_roundtrip (m : ElementMetadata) :
  (forall x, filename m <> VPath x) ->
  ElementMetadata_from_dict (ElementMetadata_to_dict m) = Ok m.
Proof.
  intros Hf. unfold ElementMetadata_from_dict.
  rewrite decide_True by apply ElementMetadata_to_dict_dom.
  rewrite !ElementMetadata_to_dict_lookup. simpl.
  rewrite !default_entry. f_equal. apply ElementMetadata_init_idem, Hf.
Qed.

(** C6. For every metadata record [m], that is, whatever the constructor
    was given, [from_dict (to_dict m)] returns [m] itself. The keys of
    [to_dict m] are exactly the names of the fields that are not [None],
    each with the value of its field, so no key holds [None]; a record with
    only the page number set serializes to the one entry [page_number]. *)
Theorem metadata_roundtrip (f p u : pyval) (n : Z) :
  let m := ElementMetadata_init f p u in
  ElementMetadata_from_dict (ElementMetadata_to_dict m) = Ok m /\
  (forall k,
     is_Some (ElementMetadata_to_dict m !! k) <->
     (k = "filename"%string /\ filename m <> VNone) \/
     (k = "page_number"%string /\ page_number m <> VNone) \/
     (k = "url"%string /\ url m <> VNone)) /\
  (forall k v,
     ElementMetadata_to_dict m !! k = Some v ->
     v <> VNone /\
     ((k = "filename"%string /\ v = filename m) \/
      (k = "page_number"%string /\ v = page_number m) \/
      (k = "url"%string /\ v = url m))) /\
  ElementMetadata_to_dict (ElementMetadata_init VNone (VInt n) VNone) =
    {[ "page_number"%string := VInt n ]} /\
  dom (ElementMetadata_to_dict (ElementMetadata_init VNone (VInt n) VNone)) =
    {[ "page_number"%string ]}.
Proof.
  intros m.
  split; [apply ElementMetadata_roundtrip; intros x;
          apply ElementMetadata_init_filename |].
  split; [| split].
  - intros k. rewrite ElementMetadata_to_dict_lookup. unfold entry.
    repeat case_decide; subst.
    + destruct (is_None (filename m)) eqn:E.
      * apply is_None_true in E. split; [intros [? ?]; discriminate |].
        intros [[_ ?] | [[? _] | [? _]]]; congruence.
      * apply is_None_false in E. split; eauto.
    + destruct (is_None (page_number m)) eqn:E.
      * apply is_None_true in E. split; [intros [? ?]; discriminate |].
        intros [[? _] | [[_ ?] | [? _]]]; congruence.
      * apply is_None_false in E. split; eauto.
    + destruct (is_None (url m)) eqn:E.
      * apply is_None_true in E. split; [intros [? ?]; discriminate |].
        intros [[? _] | [[? _] | [_ ?]]]; congruence.
      * apply is_None_false in E. split; eauto.
    + split; [intros [? ?]; discriminate |].
      intros [[? _] | [[? _] | [? _]]]; congruence.
  - intros k v. rewrite ElementMetadata_to_dict_lookup. unfold entry.
    repeat case_decide; subst; try discriminate.
    + destruct (is_None (filename m)) eqn:E; [discriminate |].
      intros [= <-]. apply is_None_false in E. auto.
    + destruct (is_None (page_number m)) eqn:E; [discriminate |].
      intros [= <-]. apply is_None_false in E. auto.
    + destruct (is_None (url m)) eqn:E; [discriminate |].
      intros [= <-]. apply is_None_false in E. auto 6.
  - assert (Hd : ElementMetadata_to_dict
                   (ElementMetadata_init VNone (VInt n) VNone) =
                 {[ "page_number"%string := VInt n ]}).
    { apply map_eq. intros k. rewrite ElementMetadata_to_dict_lookup.
      repeat case_decide; subst; simpl.
      - rewrite lookup_singleton_ne by congruence. reflexivity.
      - rewrite lookup_singleton_eq. reflexivity.
      - rewrite lookup_singleton_ne by congruence. reflexivity.
      - rewrite lookup_singleton_ne by congruence. reflexivity. }
    split; [exact Hd |]. rewrite Hd. apply dom_singleton_L.
Qed.

(** ** Equality *)

Lemma str_eq_true (s t : pystr) : str_eq s t = true <-> s = t.
Proof. unfold str_eq. apply bool_decide_eq_true. Qed.

Lemma category_inj (c c' : text_class) : category c = category c' -> c = c'.
Proof. destruct c, c'; simpl; intros E; congruence. Qed.

(** What [==] on two lists computes: same length, items equal pairwise. *)
Lemma list_eq_Forall2 (l1 l2 : list float) :
  list_eq l1 l2 = true <-> Forall2 (fun x y => float_eq x y = true) l1 l2.
Proof.
  revert l2. induction l1 as [| x l1 IH]; intros [| y l2]; simpl.
  - split; [constructor | reflexivity].
  - split; [discriminate | intros Hf; inversion Hf].
  - split; [discriminate | intros Hf; inversion Hf].
  - rewrite andb_true_iff, IH. split.
    + intros [Hxy Hl]. constructor; assumption.
    + intros Hf. inversion Hf; subst. auto.
Qed.

Lemma coordinates_eq_match (c1 c2 : option (list float)) :
  coordinates_eq c1 c2 = true <-> coordinates_match c1 c2.
Proof.
  destruct c1 as [l1 |], c2 as [l2 |]; simpl;
    [apply list_eq_Forall2 | | |]; split;
    try discriminate; try contradiction; auto.
Qed.

(** When the item comparison is equality of values, matching coordinates
    are the same coordinates. *)
Lemma coordinates_match_eq (c1 c2 : option (list float)) :
  (forall x y : float, float_eq x y = true <-> x = y) ->
  coordinates_match c1 c2 <-> c1 = c2.
Proof.
  intros Hdec. destruct c1 as [l1 |], c2 as [l2 |]; simpl;
    try (split; [contradiction | discriminate]); [| tauto].
  split.
  - intros Hf. f_equal. induction Hf as [| x y l1 l2 Hxy _ IH];
      [reflexivity |]. apply Hdec in Hxy. congruence.
  - intros [= ->]. induction l2 as [| y l2 IH]; constructor;
      [apply Hdec; reflexivity | exact IH].
Qed.

(** C7. Two text elements are equal exactly when their texts are the same
    string, their coordinates match (both absent, or lists of the same
    length with items that compare equal one by one) and their categories
    are the same tag; two checkboxes exactly when their checked flags are
    the same and their coordinates match. Where two items compare equal
    just when they are the same value, matching coordinates are the same
    coordinates. Identifiers and metadata take no part: replacing them on
    either side changes neither result. *)
Theorem equality_excludes_identity (a b : TextElement) (x y : CheckBox)
    (i i' : identifier) (m m' : ElementMetadata) :
  (Text_eq a b = true <->
   text a = text b /\
   coordinates_eq (coordinates (text_element a))
                  (coordinates (text_element b)) = true /\
   category (class_of a) = category (class_of b)) /\
  (CheckBox_eq x y = true <->
   checked x = checked y /\
   coordinates_eq (coordinates (checkbox_element x))
                  (coordinates (checkbox_element y)) = true) /\
  Text_eq
    (mkTextElement (mkElement i (coordinates (text_element a)) m)
                   (class_of a) (text a))
    (mkTextElement (mkElement i' (coordinates (text_element b)) m')
                   (class_of b) (text b)) = Text_eq a b /\
  CheckBox_eq
    (mkCheckBox (mkElement i (coordinates (checkbox_element x)) m) (checked x))
    (mkCheckBox (mkElement i' (coordinates (checkbox_element y)) m')
                (checked y)) = CheckBox_eq x y /\
  (Text_eq a b = true <->
   text a = text b /\
   coordinates_match (coordinates (text_element a))
                     (coordinates (text_element b)) /\
   category (class_of a) = category (class_of b)) /\
  (CheckBox_eq x y = true <->
   checked x = checked y /\
   coordinates_match (coordinates (checkbox_element x))
                     (coordinates (checkbox_element y))) /\
  ((forall u v : float, float_eq u v = true <-> u = v) ->
   (Text_eq a b = true <->
    text a = text b /\
    coordinates (text_element a) = coordinates (text_element b) /\
    category (class_of a) = category (class_of b)) /\
   (CheckBox_eq x y = true <->
    checked x = checked y /\
    coordinates (checkbox_element x) = coordinates (checkbox_element y))).
Proof.
  assert (Htext : Text_eq a b = true <->
    text a = text b /\
    coordinates_eq (coordinates (text_element a))
                   (coordinates (text_element b)) = true /\
    category (class_of a) = category (class_of b)).
  { unfold Text_eq, all. simpl. rewrite !andb_true_iff, str_eq_true.
    rewrite String.eqb_eq. tauto. }
  assert (Hbox : CheckBox_eq x y = true <->
    checked x = checked y /\
    coordinates_eq (coordinates (checkbox_element x))
                   (coordinates (checkbox_element y)) = true).
  { unfold CheckBox_eq. rewrite andb_true_iff, Bool.eqb_true_iff. tauto. }
  split; [exact Htext |]. split; [exact Hbox |].
  split; [reflexivity |]. split; [reflexivity |].
  split; [rewrite Htext, coordinates_eq_match; tauto |].
  split; [rewrite Hbox, coordinates_eq_match; tauto |].
  intros Hdec. split.
  - rewrite Htext, coordinates_eq_match, (coordinates_match_eq _ _ Hdec). tauto.
  - rewrite Hbox, coordinates_eq_match, (coordinates_match_eq _ _ Hdec). tauto.
Qed.

(** ** Markdown *)

(** C8. The markdown form of a text element, for every text [t] and
    whatever its identifier, coordinates and metadata: by class, the text
    wrapped as an image reference, the text itself, the text after a bullet
    or a heading mark, the empty string, and two newlines. *)
Theorem to_markdown_table (b : Element) (t : pystr) :
  to_markdown (mkTextElement b Text t) = lit "![](" ++ t ++ lit ")" /\
  to_markdown (mkTextElement b FigureCaption t) = lit "![](" ++ t ++ lit ")" /\
  to_markdown (mkTextElement b NarrativeText t) = t /\
  to_markdown (mkTextElement b Address t) = t /\
  to_markdown (mkTextElement b ListItem t) = lit "- " ++ t /\
  to_markdown (mkTextElement b Title t) = lit "# " ++ t /\
  to_markdown (mkTextElement b Image t) = [] /\
  to_markdown (mkTextElement b PageBreak t) = [10; 10] /\
  (forall e, category (class_of e) = "UncategorizedText"%string ->
             to_markdown e = lit "![](" ++ text e ++ lit ")") /\
  (forall e, category (class_of e) = "PageBreak"%string ->
             length (to_markdown e) = 2%nat /\
             Forall (fun c => c = N_of_ascii "010"%char) (to_markdown e)).
Proof.
  do 8 (split; [reflexivity |]). split.
  - intros e He. unfold to_markdown.
    destruct (class_of e); simpl in He; try discriminate; reflexivity.
  - intros e He. unfold to_markdown.
    destruct (class_of e); simpl in He; try discriminate.
    split; [reflexivity | repeat constructor].
Qed.

(** ** The type registry *)

(** The nine tags of the registry and the class of each. *)
Lemma registry_lookup (tag : string) (c : text_class) :
  TYPE_TO_TEXT_ELEMENT_MAP !! tag = Some c <->
  (tag = "BulletedText"%string /\ c = ListItem) \/ tag = category c.
Proof.
  unfold TYPE_TO_TEXT_ELEMENT_MAP. simpl. split.
  - intros Hl.
    repeat match type of Hl with
    | <[_ := _]> _ !! _ = Some _ =>
        apply lookup_insert_Some in Hl as [[<- <-] | [_ Hl]]; [simpl; auto |]
    end.
    rewrite lookup_empty in Hl. discriminate.
  - intros [[-> ->] | ->].
    + repeat first [ apply lookup_insert_eq
                   | rewrite lookup_insert_ne by discriminate ].
    + destruct c; simpl;
        repeat first [ apply lookup_insert_eq
                     | rewrite lookup_insert_ne by discriminate ].
Qed.

(** C9 (as amended). For every registered tag other than [PageBreak], the
    alias [BulletedText] included, calling the registry's class with the
    stored text and a stored string identifier builds an element with that
    text and exactly that identifier. The class registered as [PageBreak]
    ignores both: its element has the fixed text and the identifier derived
    from it. *)
Theorem registry_constructor_identifier (tag : string) (c : text_class)
    (s i : pystr) (co : option (list float)) (m : ElementMetadata) :
  TYPE_TO_TEXT_ELEMENT_MAP !! tag = Some c ->
  (tag <> "PageBreak"%string ->
   exists e,
     construct c s (Id i) co m = Ok e /\
     element_id (text_element e) = Id i /\
     text e = s /\
     (tag <> "BulletedText"%string -> category (class_of e) = tag)) /\
  (tag = "PageBreak"%string ->
   exists e,
     construct c s (Id i) co m = Ok e /\
     element_id (text_element e) = Id (lit "5ea24028ea5addabb8f07dfff681501d") /\
     text e = lit "<PAGE BREAK>").
Proof.
  intros Hl. apply registry_lookup in Hl. split.
  - intros Htag.
    assert (Hc : c <> PageBreak).
    { intros ->. destruct Hl as [[_ ?] | ->]; [discriminate | auto]. }
    exists (mkTextElement (mkElement (Id i) co m) c s).
    split; [destruct c; try reflexivity; contradiction |].
    repeat split. intros Hb.
    destruct Hl as [[-> _] | ->]; [contradiction | reflexivity].
  - intros ->.
    assert (c = PageBreak) as ->.
    { destruct Hl as [[? _] | Hc]; [discriminate |].
      apply category_inj. symmetry. exact Hc. }
    eexists. split; [apply PageBreak_init_value |]. split; reflexivity.
Qed.

End Properties.

(** * Closed instances

    The statements above at concrete inputs, with integer coordinates, and
    the inputs at which the specification's wording fails. *)

Lemma scalar_abc : Forall is_scalar (lit "abc").
Proof. repeat constructor; left; reflexivity. Defined.

(** C1 at the text [abc]: the identifier is the first half of the digest
    of the FIPS 180-4 test vector. *)
Lemma Text_init_identifier_abc :
  exists e,
    Text_of (F := integer_coordinates) (lit "abc") = Ok e /\
    element_id (text_element e) = Id (lit "ba7816bf8f01cfea414140de5dae2223").
Proof.
  destruct (proj1 (Text_init_identifier (F := integer_coordinates)
                     Text Text (lit "abc") [] None None
                     ElementMetadata_default ElementMetadata_default)
                  scalar_abc)
    as (bytes & e & Hbytes & He & Hid & _).
  exists e. split; [exact He |].
  rewrite Hid. vm_compute in Hbytes. injection Hbytes as <-.
  vm_compute. reflexivity.
Defined.

(** C1 fails as stated on a string that holds a lone surrogate, which
    [str.encode()] refuses: the constructor raises and no element exists. *)
Lemma Text_init_lone_surrogate :
  is_str [0xD800] /\
  Text_of (F := integer_coordinates) [0xD800] = Raise UnicodeEncodeError.
Proof.
  split; [repeat constructor; discriminate | reflexivity].
Qed.

(** C2 at the specification's example: an element built from [abc], whose
    text a transform replaces by [xyz], keeps the identifier derived from
    [abc]. *)
Lemma apply_keeps_identifier_abc :
  exists e,
    Text_of (F := integer_coordinates) (lit "abc") = Ok e /\
    Text_apply e [returns (VStr (lit "xyz"))] = (set_text e (lit "xyz"), Ok tt) /\
    element_id (text_element (fst (Text_apply e [returns (VStr (lit "xyz"))]))) =
      Id (lit "ba7816bf8f01cfea414140de5dae2223").
Proof.
  eexists. split; [apply Text_of_abc |]. split; [reflexivity |].
  destruct (proj2 (proj2 (proj2
              (apply_keeps_identifier (F := integer_coordinates)
                 (mkTextElement
                    (mkElement (Id (lit "ba7816bf8f01cfea414140de5dae2223"))
                               None ElementMetadata_default)
                    Text (lit "abc"))
                 [returns (VStr (lit "xyz"))])))
              Text (lit "abc") NoID None ElementMetadata_default Text_of_abc)
    as (bytes & Hbytes & Hid).
  rewrite Hid. vm_compute in Hbytes. injection Hbytes as <-.
  vm_compute. reflexivity.
Defined.

(** C3 at a call that passes every argument: none of them is found in the
    element. *)
Lemma PageBreak_init_ignored :
  exists e,
    PageBreak_init (F := integer_coordinates)
      (Some (lit "ignored")) (Id (lit "abc")) (Some [1; 2]%Z)
      (ElementMetadata_init VNone (VInt 3) VNone) = Ok e /\
    text e = lit "<PAGE BREAK>" /\
    coordinates (text_element e) = None /\
    metadata (text_element e) = ElementMetadata_default /\
    element_id (text_element e) <> Id (lit "abc").
Proof.
  destruct (proj2 (PageBreak_init_discards (F := integer_coordinates)
                     (Some (lit "ignored")) (Id (lit "abc")) (Some [1; 2]%Z)
                     (ElementMetadata_init VNone (VInt 3) VNone)))
    as (e & He & Ht & _ & _ & Hco & Hm & Hid).
  exists e. repeat split; try assumption.
  apply (Hid (lit "abc")); [reflexivity | discriminate].
Defined.

(** C4 at three chains on the text [abc]: one whose last transform
    returns [None], one whose first transform returns [None] and whose
    second returns [ok], and one whose second transform raises. *)
Lemma apply_rejects_final_None :
  let abc :=
    mkTextElement (F := integer_coordinates)
      (mkElement (Id (lit "1")) None ElementMetadata_default) Text (lit "abc") in
  snd (Text_apply abc [str_cleaner upper; returns VNone]) =
    Raise (ValueError "Cleaner produced a non-string output.") /\
  Text_apply abc [returns VNone; returns (VStr (lit "ok"))] =
    (set_text abc (lit "ok"), Ok tt) /\
  Text_apply abc [str_cleaner upper; raises (OtherError "boom");
                  returns (VStr (lit "ok"))] =
    (abc, Raise (OtherError "boom")).
Proof.
  intros abc.
  split; [| split].
  - apply (proj1 (proj2 (apply_validates_final_output abc
                           [str_cleaner upper; returns VNone]))
                 [str_cleaner upper] (returns VNone) (VStr (lit "ABC")) VNone);
      reflexivity.
  - apply (proj1 (proj2 (proj2 (proj2 (proj2 (proj2
             (apply_validates_final_output abc
                [returns VNone; returns (VStr (lit "ok"))]))))))
             [VNone; VStr (lit "ok")] (lit "ok")).
    + apply outputs_cons; [reflexivity |].
      apply outputs_cons; [reflexivity |]. apply outputs_nil.
    + reflexivity.
  - apply (proj1 (proj2 (proj2 (proj2 (proj2 (proj2 (proj2 (proj2
             (apply_validates_final_output abc
                [str_cleaner upper; raises (OtherError "boom");
                 returns (VStr (lit "ok"))]))))))))
             [str_cleaner upper] (raises (OtherError "boom"))
             [returns (VStr (lit "ok"))] [VStr (lit "ABC")]
             (OtherError "boom")).
    + reflexivity.
    + apply outputs_cons; [reflexivity | apply outputs_nil].
    + reflexivity.
Defined.

(** C4 fails as stated when a transform in the middle of the chain returns
    [None] and a later one returns a string: the first output is not a
    string, and the call succeeds. *)
Lemma apply_accepts_intermediate_None :
  returns (F := integer_coordinates) VNone (VStr (lit "abc")) = Ok VNone /\
  isinstance_str (F := integer_coordinates) VNone = false /\
  Text_apply (F := integer_coordinates)
    (mkTextElement (mkElement (Id (lit "1")) None ElementMetadata_default)
                   Text (lit "abc"))
    [returns VNone; returns (VStr (lit "ok"))] =
  (mkTextElement (mkElement (Id (lit "1")) None ElementMetadata_default)
                 Text (lit "ok"),
   Ok tt).
Proof. repeat split. Qed.

(** C5 at the specification's ordering example: [hi] through [upper] and
    then [+ "!"] is [HI!]; with a suffix that [upper] changes, the two
    orders differ; and a chain that ends in [None] leaves the text. *)
Lemma apply_upper_then_exclaim :
  let hi :=
    mkTextElement (F := integer_coordinates)
      (mkElement (Id (lit "1")) None ElementMetadata_default) Text (lit "hi") in
  Text_apply hi (map str_cleaner [upper; append (lit "!")]) =
    (set_text hi (lit "HI!"), Ok tt) /\
  Text_apply hi (map str_cleaner [upper; append (lit "a")]) =
    (set_text hi (lit "HIa"), Ok tt) /\
  Text_apply hi (map str_cleaner [append (lit "a"); upper]) =
    (set_text hi (lit "HIA"), Ok tt) /\
  text (fst (Text_apply hi [str_cleaner upper; returns VNone])) = lit "hi".
Proof.
  intros hi.
  pose proof (fun cs => proj2 (proj2 (apply_composes hi cs))) as Hpure.
  split; [exact (Hpure _ [upper; append (lit "!")] eq_refl) |].
  split; [exact (Hpure _ [upper; append (lit "a")] eq_refl) |].
  split; [exact (Hpure _ [append (lit "a"); upper] eq_refl) |].
  rewrite (proj1 (proj2 (apply_composes hi [str_cleaner upper; returns VNone]))
             (fst (Text_apply hi [str_cleaner upper; returns VNone]))
             (ValueError "Cleaner produced a non-string output.") eq_refl).
  reflexivity.
Defined.

(** C6 at a record with only the page number, and at one built from a
    path: the dictionary holds the string the constructor left. *)
Lemma metadata_roundtrip_page_number :
  ElementMetadata_to_dict (F := integer_coordinates)
    (ElementMetadata_init VNone (VInt 3) VNone) =
    {[ "page_number"%string := VInt 3 ]} /\
  ElementMetadata_from_dict (F := integer_coordinates)
    (ElementMetadata_to_dict
       (ElementMetadata_init (VPath (lit "a.pdf")) (VInt 3) VNone)) =
    Ok (mkElementMetadata (VStr (lit "a.pdf")) (VInt 3) VNone).
Proof.
  split.
  - exact (proj1 (proj2 (proj2 (proj2
             (metadata_roundtrip (F := integer_coordinates)
                VNone VNone VNone 3))))).
  - exact (proj1 (metadata_roundtrip (F := integer_coordinates)
                    (VPath (lit "a.pdf")) (VInt 3) VNone 0)).
Defined.

(** C7 at the specification's examples: same text, coordinates and
    category, different identifiers and metadata; and two checked
    checkboxes at [[1, 2]]. With other coordinates, longer or absent, the
    same elements are not equal. *)
Lemma equality_excludes_identity_example :
  let title i co m :=
    mkTextElement (F := integer_coordinates) (mkElement (Id (lit i)) co m)
                  Title (lit "x") in
  let box i co m :=
    CheckBox_init (F := integer_coordinates) i co true m in
  Text_eq (title "1" (Some [1; 2]%Z) (ElementMetadata_init VNone (VInt 1) VNone))
          (title "2" (Some [1; 2]%Z)
                 (ElementMetadata_init (VStr (lit "f")) VNone VNone)) = true /\
  Text_eq (title "1" (Some [1; 2]%Z) ElementMetadata_default)
          (title "1" (Some [7; 8; 9]%Z) ElementMetadata_default) = false /\
  Text_eq (title "1" (Some [1; 2]%Z) ElementMetadata_default)
          (title "1" (Some [1; 3]%Z) ElementMetadata_default) = false /\
  Text_eq (title "1" (Some [1; 2]%Z) ElementMetadata_default)
          (title "1" None ElementMetadata_default) = false /\
  CheckBox_eq (box (Id (lit "1")) (Some [1; 2]%Z) ElementMetadata_default)
              (box NoID (Some [1; 2]%Z)
                   (ElementMetadata_init VNone (VInt 7) VNone)) = true /\
  CheckBox_eq (box NoID (Some [1; 2]%Z) ElementMetadata_default)
              (box NoID (Some [7; 8; 9]%Z) ElementMetadata_default) = false.
Proof.
  intros title box.
  assert (Hdec : forall u v : float (PyFloat := integer_coordinates),
            float_eq u v = true <-> u = v) by (intros u v; apply Z.eqb_eq).
  pose proof (fun a b =>
    proj1 (proj2 (proj2 (proj2 (proj2 (proj2 (proj2
      (equality_excludes_identity (F := integer_coordinates) a b
         (box NoID None ElementMetadata_default)
         (box NoID None ElementMetadata_default)
         NoID NoID ElementMetadata_default ElementMetadata_default))))))
      Hdec)) as Htext.
  pose proof (fun x y =>
    proj2 (proj2 (proj2 (proj2 (proj2 (proj2 (proj2
      (equality_excludes_identity (F := integer_coordinates)
         (title "1" None ElementMetadata_default)
         (title "1" None ElementMetadata_default)
         x y
         NoID NoID ElementMetadata_default ElementMetadata_default))))))
      Hdec)) as Hbox.
  assert (Hne : forall a b : TextElement (F := integer_coordinates),
            coordinates (text_element a) <> coordinates (text_element b) ->
            Text_eq a b = false).
  { intros a b Hco. destruct (Text_eq a b) eqn:E; [| reflexivity].
    apply Htext in E as (_ & E & _). contradiction. }
  split; [apply Htext; repeat split |].
  split; [apply Hne; discriminate |].
  split; [apply Hne; discriminate |].
  split; [apply Hne; discriminate |].
  split; [apply Hbox; repeat split |].
  destruct (CheckBox_eq (box NoID (Some [1; 2]%Z) ElementMetadata_default)
              (box NoID (Some [7; 8; 9]%Z) ElementMetadata_default)) eqn:E;
    [| reflexivity].
  apply Hbox in E as (_ & E). discriminate.
Defined.

(** C8 at the specification's examples. *)
Lemma to_markdown_examples :
  let b := mkElement (F := integer_coordinates) NoID None ElementMetadata_default in
  to_markdown (mkTextElement b Title (lit "Intro")) = lit "# Intro" /\
  to_markdown (mkTextElement b ListItem (lit "x")) = lit "- x" /\
  to_markdown (mkTextElement b Image (lit "x")) = lit "" /\
  length (to_markdown (mkTextElement b PageBreak (lit "<PAGE BREAK>"))) = 2%nat.
Proof.
  intros b.
  destruct (to_markdown_table b (lit "Intro"))
    as (_ & _ & _ & _ & _ & Htitle & _).
  destruct (to_markdown_table b (lit "x"))
    as (_ & _ & _ & _ & Hitem & _ & Himage & _).
  destruct (to_markdown_table b (lit "<PAGE BREAK>"))
    as (_ & _ & _ & _ & _ & _ & _ & _ & _ & Hbreak).
  split; [exact Htitle |]. split; [exact Hitem |]. split; [exact Himage |].
  exact (proj1 (Hbreak (mkTextElement b PageBreak (lit "<PAGE BREAK>")) eq_refl)).
Defined.

(** C9 at the legacy alias: a list item with the stored identifier. *)
Lemma registry_BulletedText_keeps_identifier :
  exists e,
    construct (F := integer_coordinates) ListItem (lit "x") (Id (lit "abc"))
      None ElementMetadata_default = Ok e /\
    element_id (text_element e) = Id (lit "abc") /\
    category (class_of e) = "ListItem"%string.
Proof.
  destruct (proj1 (registry_constructor_identifier (F := integer_coordinates)
                     "BulletedText" ListItem (lit "x") (lit "abc")
                     None ElementMetadata_default eq_refl))
    as (e & He & Hid & Ht & _); [discriminate |].
  exists e. split; [exact He |]. split; [exact Hid |].
  pose proof He as Hvalue. vm_compute in Hvalue. injection Hvalue as <-.
  reflexivity.
Defined.

(** C9 fails as stated on the tag [PageBreak]: the registry's class drops
    the stored identifier and derives one from the fixed text. *)
Lemma registry_PageBreak_drops_identifier :
  TYPE_TO_TEXT_ELEMENT_MAP !! "PageBreak"%string = Some PageBreak /\
  exists e,
    construct (F := integer_coordinates) PageBreak (lit "<PAGE BREAK>")
      (Id (lit "abc")) None ElementMetadata_default = Ok e /\
    element_id (text_element e) = Id (lit "5ea24028ea5addabb8f07dfff681501d") /\
    element_id (text_element e) <> Id (lit "abc").
Proof.
  split; [reflexivity |].
  eexists. split; [apply PageBreak_init_value |].
  split; [reflexivity | discriminate].
Qed.

(** * Further properties of the module *)

Section Coverage.

Context `{F : PyFloat}.

(** ** ElementMetadata *)

Lemma entry_inj (v v' : pyval) : entry v = entry v' -> v = v'.
Proof.
  unfold entry. destruct (is_None v) eqn:E, (is_None v') eqn:E';
    try discriminate.
  - apply is_None_true in E, E'. congruence.
  - congruence.
Qed.

Lemma entry_Some (v : pyval) : v <> VNone -> entry v = Some v.
Proof. intros Hv. apply is_None_false in Hv. unfold entry. rewrite Hv. reflexivity. Qed.

Lemma fields_elem (k : string) :
  k ∈ ElementMetadata_fields <->
  k = "filename"%string \/ k = "page_number"%string \/ k = "url"%string.
Proof.
  unfold ElementMetadata_fields.
  rewrite !elem_of_union, !elem_of_singleton. tauto.
Qed.

Lemma from_dict_Ok (d : gmap string pyval) :
  dom d ⊆ ElementMetadata_fields ->
  ElementMetadata_from_dict d =
  Ok (ElementMetadata_init
        (default VNone (d !! "filename"%string))
        (default VNone (d !! "page_number"%string))
        (default VNone (d !! "url"%string))).
Proof. intros Hdom. unfold ElementMetadata_from_dict. apply decide_True, Hdom. Qed.

Lemma from_dict_Raise (d : gmap string pyval) :
  ~ dom d ⊆ ElementMetadata_fields ->
  ElementMetadata_from_dict d =
  Raise (TypeError "__init__() got an unexpected keyword argument").
Proof. intros Hdom. unfold ElementMetadata_from_dict. apply decide_False, Hdom. Qed.

(** [from_dict] accepts exactly the dictionaries whose keys are field
    names; any other key makes it raise [TypeError]. A field whose key is
    missing is [None], a field whose key is present has the value stored,
    a path under [filename] as its string. *)
Theorem from_dict_keys (d : gmap string pyval) :
  ((exists m, ElementMetadata_from_dict d = Ok m) <->
   forall k, is_Some (d !! k) ->
     k = "filename"%string \/ k = "page_number"%string \/ k = "url"%string) /\
  (forall k, is_Some (d !! k) -> k ∉ ElementMetadata_fields ->
     exists msg, ElementMetadata_from_dict d = Raise (TypeError msg)) /\
  (forall m, ElementMetadata_from_dict d = Ok m ->
     page_number m = default VNone (d !! "page_number"%string) /\
     url m = default VNone (d !! "url"%string) /\
     (forall p, d !! "filename"%string = Some (VPath p) -> filename m = VStr p) /\
     ((forall p, d !! "filename"%string <> Some (VPath p)) ->
      filename m = default VNone (d !! "filename"%string))).
Proof.
  split; [| split].
  - split.
    + intros [m Hm] k Hk.
      destruct (decide (dom d ⊆ ElementMetadata_fields)) as [Hdom | Hdom].
      * apply fields_elem, Hdom, elem_of_dom, Hk.
      * rewrite (from_dict_Raise d Hdom) in Hm. discriminate.
    + intros Hk. rewrite from_dict_Ok; [eauto |].
      intros k Hin. apply fields_elem, Hk, elem_of_dom, Hin.
  - intros k Hk Hnot. rewrite from_dict_Raise; [eauto |].
    intros Hdom. apply Hnot, Hdom, elem_of_dom, Hk.
  - intros m Hm.
    destruct (decide (dom d ⊆ ElementMetadata_fields)) as [Hdom | Hdom];
      [| rewrite (from_dict_Raise d Hdom) in Hm; discriminate].
    rewrite (from_dict_Ok d Hdom) in Hm. injection Hm as <-.
    unfold ElementMetadata_init, ElementMetadata_post_init. simpl.
    destruct (d !! "filename"%string) as [f |] eqn:Ef; simpl.
    + destruct f; simpl; repeat split; try congruence;
        intros Hp; try reflexivity; exfalso; eapply Hp; reflexivity.
    + repeat split; congruence.
Qed.

(** The other round trip: a dictionary of field names that holds no [None]
    and no path comes back from [to_dict (from_dict d)] as it was. *)
Theorem to_dict_from_dict (d : gmap string pyval) :
  dom d ⊆ ElementMetadata_fields ->
  (forall k, d !! k <> Some VNone) ->
  (forall p, d !! "filename"%string <> Some (VPath p)) ->
  exists m,
    ElementMetadata_from_dict d = Ok m /\ ElementMetadata_to_dict m = d.
Proof.
  intros Hdom Hnone Hpath. eexists. split; [apply from_dict_Ok, Hdom |].
  assert (Hentry : forall k, entry (default VNone (d !! k)) = d !! k).
  { intros k. specialize (Hnone k). destruct (d !! k) as [v |]; simpl.
    - apply entry_Some. congruence.
    - reflexivity. }
  assert (Hf : filename (ElementMetadata_init
                 (default VNone (d !! "filename"%string))
                 (default VNone (d !! "page_number"%string))
                 (default VNone (d !! "url"%string))) =
               default VNone (d !! "filename"%string)).
  { destruct (d !! "filename"%string) as [f |] eqn:Ef; [| reflexivity].
    destruct f; try reflexivity. exfalso. eapply Hpath. reflexivity. }
  apply map_eq. intros k. rewrite ElementMetadata_to_dict_lookup.
  repeat case_decide; subst.
  - rewrite Hf. apply Hentry.
  - destruct (default VNone (d !! "filename"%string)); apply Hentry.
  - destruct (default VNone (d !! "filename"%string)); apply Hentry.
  - symmetry. apply not_elem_of_dom. intros Hk.
    apply Hdom, fields_elem in Hk. tauto.
Qed.

(** The constructor turns a path under [filename] into its string and
    leaves every other value alone: a record built from a path is the
    record built from the path's string, no record holds a path, and
    [__post_init__] changes nothing on a record already built. *)
Theorem metadata_filename_normalised (f pn u : pyval) (p : pystr) :
  ElementMetadata_init (VPath p) pn u = ElementMetadata_init (VStr p) pn u /\
  ElementMetadata_to_dict (ElementMetadata_init (VPath p) pn u) !! "filename"%string
    = Some (VStr p) /\
  (forall x, filename (ElementMetadata_init f pn u) <> VPath x) /\
  ((forall x, f <> VPath x) -> filename (ElementMetadata_init f pn u) = f) /\
  page_number (ElementMetadata_init f pn u) = pn /\
  url (ElementMetadata_init f pn u) = u /\
  ElementMetadata_post_init (ElementMetadata_init f pn u) =
    ElementMetadata_init f pn u.
Proof.
  split; [reflexivity |].
  split; [rewrite ElementMetadata_to_dict_lookup; reflexivity |].
  split; [intros x; apply ElementMetadata_init_filename |].
  split; [intros Hf; destruct f; try reflexivity; exfalso; eapply Hf; reflexivity |].
  destruct f; repeat split.
Qed.

(** The dictionary of a record has as many entries as the record has
    fields that are not [None], at most three, and is empty exactly for the
    record with no field set. *)
Theorem to_dict_size (m : ElementMetadata) :
  size (ElementMetadata_to_dict m) =
    length (filter (fun v => is_None v = false)
                   [filename m; page_number m; url m]) /\
  (size (ElementMetadata_to_dict m) <= 3)%nat /\
  (ElementMetadata_to_dict m = ∅ <->
   filename m = VNone /\ page_number m = VNone /\ url m = VNone).
Proof.
  assert (Hsize : size (ElementMetadata_to_dict m) =
    length (filter (fun v => is_None v = false)
                   [filename m; page_number m; url m])).
  { unfold ElementMetadata_to_dict, ElementMetadata_items.
    rewrite !filter_cons, !filter_nil. simpl.
    destruct (is_None (filename m)), (is_None (page_number m)),
      (is_None (url m)); simpl;
      repeat (rewrite map_size_insert_None;
              [| repeat (rewrite lookup_insert_ne by discriminate);
                 apply lookup_empty]);
      rewrite ?map_size_empty; reflexivity. }
  split; [exact Hsize |]. split.
  - rewrite Hsize. rewrite !filter_cons, !filter_nil.
    repeat case_decide; simpl; lia.
  - split.
    + intros Hempty.
      assert (Hk : forall k, ElementMetadata_to_dict m !! k = None)
        by (intros k; rewrite Hempty; apply lookup_empty).
      pose proof (Hk "filename"%string) as H1.
      pose proof (Hk "page_number"%string) as H2.
      pose proof (Hk "url"%string) as H3.
      rewrite ElementMetadata_to_dict_lookup in H1, H2, H3.
      simpl in H1, H2, H3. unfold entry in H1, H2, H3.
      destruct (is_None (filename m)) eqn:E1; [| discriminate].
      destruct (is_None (page_number m)) eqn:E2; [| discriminate].
      destruct (is_None (url m)) eqn:E3; [| discriminate].
      apply is_None_true in E1, E2, E3. auto.
    + intros (H1 & H2 & H3). apply map_eq. intros k.
      rewrite ElementMetadata_to_dict_lookup, lookup_empty, H1, H2, H3.
      repeat case_decide; reflexivity.
Qed.

Lemma to_dict_entries (m m' : ElementMetadata) :
  ElementMetadata_to_dict m = ElementMetadata_to_dict m' ->
  entry (filename m) = entry (filename m') /\
  entry (page_number m) = entry (page_number m') /\
  entry (url m) = entry (url m').
Proof.
  intros Heq.
  assert (Hk : forall k,
    ElementMetadata_to_dict m !! k = ElementMetadata_to_dict m' !! k)
    by (intros k; rewrite Heq; reflexivity).
  pose proof (Hk "filename"%string) as H1.
  pose proof (Hk "page_number"%string) as H2.
  pose proof (Hk "url"%string) as H3.
  rewrite !ElementMetadata_to_dict_lookup in H1, H2, H3.
  auto.
Qed.

(** Leaving out the [None] fields loses nothing: two records with the same
    dictionary are the same record. *)
Theorem to_dict_injective (m m' : ElementMetadata) :
  ElementMetadata_to_dict m = ElementMetadata_to_dict m' -> m = m'.
Proof.
  intros Heq. apply to_dict_entries in Heq as (H1 & H2 & H3).
  apply entry_inj in H1, H2, H3.
  destruct m, m'. simpl in *. congruence.
Qed.

(** ** Dictionary forms of the elements *)

Lemma map_VFloat_inj (l l' : list float) :
  map VFloat l = map VFloat l' -> l = l'.
Proof.
  revert l'. induction l as [| x l IH]; intros [| y l']; simpl;
    try discriminate; [reflexivity |].
  intros [= -> Hl]. f_equal. apply IH, Hl.
Qed.

Lemma coordinates_value_inj (c c' : option (list float)) :
  coordinates_value c = coordinates_value c' -> c = c'.
Proof.
  destruct c as [l |], c' as [l' |]; simpl; try discriminate; [| reflexivity].
  intros [= Hl]. f_equal. apply map_VFloat_inj, Hl.
Qed.

Lemma identifier_value_inj (i i' : identifier) :
  identifier_value i = identifier_value i' -> i = i'.
Proof. destruct i, i'; simpl; congruence. Qed.

Lemma lit_category_inj (c c' : text_class) :
  lit (category c) = lit (category c') -> c = c'.
Proof. destruct c, c'; simpl; intros E; try reflexivity; discriminate. Qed.

Ltac lookup_inserts :=
  repeat first
    [ rewrite lookup_insert_eq
    | rewrite lookup_insert_ne by discriminate
    | rewrite lookup_empty ].

Lemma Text_to_dict_lookup (e : TextElement) :
  Text_to_dict e !! "element_id"%string =
    Some (identifier_value (element_id (text_element e))) /\
  Text_to_dict e !! "coordinates"%string =
    Some (coordinates_value (coordinates (text_element e))) /\
  Text_to_dict e !! "text"%string = Some (VStr (text e)) /\
  Text_to_dict e !! "type"%string = Some (VStr (lit (category (class_of e)))) /\
  Text_to_dict e !! "metadata"%string =
    Some (VDict (ElementMetadata_to_dict (metadata (text_element e)))).
Proof. unfold Text_to_dict. simpl. repeat split; lookup_inserts; reflexivity. Qed.

(** The dictionary form of a text element determines the element: text,
    class, identifier, coordinates and metadata can all be read back. *)
Theorem Text_to_dict_injective (a b : TextElement) :
  Text_to_dict a = Text_to_dict b -> a = b.
Proof.
  intros Heq.
  destruct (Text_to_dict_lookup a) as (Ha1 & Ha2 & Ha3 & Ha4 & Ha5).
  destruct (Text_to_dict_lookup b) as (Hb1 & Hb2 & Hb3 & Hb4 & Hb5).
  rewrite Heq in Ha1, Ha2, Ha3, Ha4, Ha5.
  rewrite Ha1 in Hb1. rewrite Ha2 in Hb2. rewrite Ha3 in Hb3.
  rewrite Ha4 in Hb4. rewrite Ha5 in Hb5.
  injection Hb1 as Hid. injection Hb2 as Hco. injection Hb3 as Htext.
  injection Hb4 as Hclass. injection Hb5 as Hmeta.
  apply identifier_value_inj in Hid. apply coordinates_value_inj in Hco.
  apply lit_category_inj in Hclass.
  apply to_dict_entries in Hmeta as (H1 & H2 & H3).
  apply entry_inj in H1, H2, H3.
  destruct a as [[ia ca [fa pa ua]] cla ta], b as [[ib cb [fb pb ub]] clb tb].
  simpl in *. congruence.
Qed.

(** Every element dictionary has a fixed set of keys, whatever the fields
    hold: unlike the metadata, absent coordinates are emitted, as [None];
    a checkbox has no [text] and the type [CheckBox]; the base element has
    the type [None]; an identifier that was never assigned is emitted as
    the [NoID] marker, which is not a string. *)
Theorem element_dict_keys (e : TextElement) (x : CheckBox) (b : Element) :
  dom (Text_to_dict e) =
    {[ "element_id"%string; "coordinates"%string; "text"%string;
       "type"%string; "metadata"%string ]} /\
  dom (CheckBox_to_dict x) =
    {[ "type"%string; "checked"%string; "coordinates"%string;
       "element_id"%string; "metadata"%string ]} /\
  dom (Element_to_dict b) =
    {[ "type"%string; "coordinates"%string; "element_id"%string;
       "metadata"%string ]} /\
  (coordinates (text_element e) = None ->
   Text_to_dict e !! "coordinates"%string = Some VNone) /\
  (coordinates (checkbox_element x) = None ->
   CheckBox_to_dict x !! "coordinates"%string = Some VNone) /\
  CheckBox_to_dict x !! "type"%string = Some (VStr (lit "CheckBox")) /\
  CheckBox_to_dict x !! "checked"%string = Some (VBool (checked x)) /\
  Element_to_dict b !! "type"%string = Some VNone /\
  (element_id (checkbox_element x) = NoID ->
   exists v, CheckBox_to_dict x !! "element_id"%string = Some v /\
             isinstance_str v = false /\ is_None v = false).
Proof.
  assert (Hdom : forall (A : Type) (k1 k2 k3 k4 : string) (v1 v2 v3 v4 : A),
    dom (<[k1:=v1]> (<[k2:=v2]> (<[k3:=v3]> (<[k4:=v4]> (∅ : gmap string A))))) =
    ({[ k1; k2; k3; k4 ]} : gset string)).
  { intros. rewrite !dom_insert_L, dom_empty_L. apply set_eq. intros k.
    rewrite !elem_of_union, !elem_of_singleton, elem_of_empty. tauto. }
  split; [| split; [| split]].
  - unfold Text_to_dict. simpl. rewrite dom_insert_L, Hdom.
    apply set_eq. intros k. rewrite !elem_of_union, !elem_of_singleton. tauto.
  - unfold CheckBox_to_dict. simpl. rewrite dom_insert_L, Hdom.
    apply set_eq. intros k. rewrite !elem_of_union, !elem_of_singleton. tauto.
  - unfold Element_to_dict. simpl. apply Hdom.
  - split.
    { intros Hco. rewrite (proj1 (proj2 (Text_to_dict_lookup e))), Hco.
      reflexivity. }
    unfold CheckBox_to_dict, Element_to_dict. simpl.
    split; [intros ->; lookup_inserts; reflexivity |].
    split; [lookup_inserts; reflexivity |].
    split; [lookup_inserts; reflexivity |].
    split; [lookup_inserts; reflexivity |].
    intros ->. exists VNoID. lookup_inserts. repeat split.
Qed.

(** ** Equality *)

Lemma Text_eq_true (a b : TextElement) :
  Text_eq a b = true <->
  text a = text b /\
  coordinates_eq (coordinates (text_element a))
                 (coordinates (text_element b)) = true /\
  class_of a = class_of b.
Proof.
  unfold Text_eq, all. simpl. rewrite !andb_true_iff, str_eq_true.
  rewrite String.eqb_eq. split.
  - intros (Ht & Hc & Hcat & _). auto using category_inj.
  - intros (Ht & Hc & ->). auto.
Qed.

Lemma CheckBox_eq_true (x y : CheckBox) :
  CheckBox_eq x y = true <->
  checked x = checked y /\
  coordinates_eq (coordinates (checkbox_element x))
                 (coordinates (checkbox_element y)) = true.
Proof. unfold CheckBox_eq. rewrite andb_true_iff, Bool.eqb_true_iff. tauto. Qed.

Lemma list_eq_refl (l : list float) :
  (forall x, float_eq x x = true) -> list_eq l l = true.
Proof.
  intros Hrefl. induction l as [| x l IH]; simpl; [reflexivity |].
  rewrite Hrefl, IH. reflexivity.
Qed.

Lemma list_eq_sym (l l' : list float) :
  (forall x y, float_eq x y = float_eq y x) -> list_eq l l' = list_eq l' l.
Proof.
  intros Hsym. revert l'. induction l as [| x l IH]; intros [| y l']; simpl;
    try reflexivity.
  rewrite Hsym, IH. reflexivity.
Qed.

Lemma list_eq_trans (l1 l2 l3 : list float) :
  (forall x y z, float_eq x y = true -> float_eq y z = true ->
                 float_eq x z = true) ->
  list_eq l1 l2 = true -> list_eq l2 l3 = true -> list_eq l1 l3 = true.
Proof.
  intros Htrans. revert l2 l3.
  induction l1 as [| x l1 IH]; intros [| y l2] [| z l3]; simpl;
    try discriminate; [reflexivity |].
  rewrite !andb_true_iff. intros [Hxy H12] [Hyz H23].
  split; [eapply Htrans; eassumption | eapply IH; eassumption].
Qed.

Lemma coordinates_eq_refl (c : option (list float)) :
  (forall x, float_eq x x = true) -> coordinates_eq c c = true.
Proof. intros Hrefl. destruct c; simpl; [apply list_eq_refl, Hrefl | reflexivity]. Qed.

Lemma coordinates_eq_sym (c c' : option (list float)) :
  (forall x y, float_eq x y = float_eq y x) ->
  coordinates_eq c c' = coordinates_eq c' c.
Proof.
  intros Hsym. destruct c, c'; simpl; try reflexivity. apply list_eq_sym, Hsym.
Qed.

Lemma coordinates_eq_trans (c1 c2 c3 : option (list float)) :
  (forall x y z, float_eq x y = true -> float_eq y z = true ->
                 float_eq x z = true) ->
  coordinates_eq c1 c2 = true -> coordinates_eq c2 c3 = true ->
  coordinates_eq c1 c3 = true.
Proof.
  intros Htrans. destruct c1, c2, c3; simpl; try discriminate;
    [apply list_eq_trans, Htrans | reflexivity].
Qed.

(** [__eq__] on text elements and on checkboxes is as good a relation as
    the comparison that list equality makes between two items of the
    coordinates ([x is y or x == y] in CPython, where it is reflexive): it
    is reflexive when that comparison is, and only then, symmetric when it
    is symmetric, and transitive when it is transitive. *)
Theorem equality_is_equivalence :
  ((forall x : float, float_eq x x = true) <->
   (forall e : TextElement, Text_eq e e = true)) /\
  ((forall x : float, float_eq x x = true) <->
   (forall c : CheckBox, CheckBox_eq c c = true)) /\
  ((forall x y : float, float_eq x y = float_eq y x) ->
   (forall a b, Text_eq a b = Text_eq b a) /\
   (forall x y, CheckBox_eq x y = CheckBox_eq y x)) /\
  ((forall x y z : float, float_eq x y = true -> float_eq y z = true ->
                          float_eq x z = true) ->
   (forall a b c, Text_eq a b = true -> Text_eq b c = true ->
                  Text_eq a c = true) /\
   (forall x y z, CheckBox_eq x y = true -> CheckBox_eq y z = true ->
                  CheckBox_eq x z = true)).
Proof.
  split; [| split; [| split]].
  - split.
    + intros Hrefl e. apply Text_eq_true.
      auto using coordinates_eq_refl.
    + intros Hrefl x.
      specialize (Hrefl (mkTextElement
                           (mkElement NoID (Some [x]) ElementMetadata_default)
                           Text [])).
      apply Text_eq_true in Hrefl as (_ & Hc & _). simpl in Hc.
      rewrite andb_true_r in Hc. exact Hc.
  - split.
    + intros Hrefl c. apply CheckBox_eq_true.
      auto using coordinates_eq_refl.
    + intros Hrefl x.
      specialize (Hrefl (mkCheckBox
                           (mkElement NoID (Some [x]) ElementMetadata_default)
                           false)).
      apply CheckBox_eq_true in Hrefl as (_ & Hc). simpl in Hc.
      rewrite andb_true_r in Hc. exact Hc.
  - intros Hsym. split.
    + intros a b. unfold Text_eq, all. simpl.
      rewrite (coordinates_eq_sym _ _ Hsym), String.eqb_sym.
      unfold str_eq. f_equal. apply bool_decide_ext. split; congruence.
    + intros x y. unfold CheckBox_eq.
      rewrite (coordinates_eq_sym _ _ Hsym). f_equal.
      destruct (checked x), (checked y); reflexivity.
  - intros Htrans. split.
    + intros a b c Hab Hbc.
      apply Text_eq_true in Hab as (Ht & Hc & Hcl).
      apply Text_eq_true in Hbc as (Ht' & Hc' & Hcl').
      apply Text_eq_true. repeat split; try congruence.
      eapply coordinates_eq_trans; eassumption.
    + intros x y z Hxy Hyz.
      apply CheckBox_eq_true in Hxy as (Hc & Hco).
      apply CheckBox_eq_true in Hyz as (Hc' & Hco').
      apply CheckBox_eq_true. split; [congruence |].
      eapply coordinates_eq_trans; eassumption.
Qed.

(** Two text elements that compare equal are of the same class and hold
    the same text, so they have the same markdown form and the same [text]
    and [type] entries; elements of different classes never compare equal,
    not even with the same text and coordinates. *)
Theorem equal_elements_render_alike (a b : TextElement) :
  (Text_eq a b = true ->
   class_of a = class_of b /\
   text a = text b /\
   to_markdown a = to_markdown b /\
   Text_to_dict a !! "text"%string = Text_to_dict b !! "text"%string /\
   Text_to_dict a !! "type"%string = Text_to_dict b !! "type"%string) /\
  (class_of a <> class_of b -> Text_eq a b = false).
Proof.
  split.
  - intros Heq. apply Text_eq_true in Heq as (Ht & _ & Hcl).
    destruct (Text_to_dict_lookup a) as (_ & _ & Ha3 & Ha4 & _).
    destruct (Text_to_dict_lookup b) as (_ & _ & Hb3 & Hb4 & _).
    rewrite Ha3, Ha4, Hb3, Hb4. unfold to_markdown. rewrite Ht, Hcl.
    repeat split.
  - intros Hcl. destruct (Text_eq a b) eqn:Heq; [| reflexivity].
    apply Text_eq_true in Heq as (_ & _ & Hcl'). contradiction.
Qed.

(** ** The cleaning pipeline *)

Lemma set_text_same (e : TextElement) : set_text e (text e) = e.
Proof. destruct e. reflexivity. Qed.

(** [apply] with no cleaner succeeds and changes nothing. A successful
    call followed by a second call ends as the single call with both chains
    in order ends, and when that is a success the element is the same. When
    it is a failure the two differ: the single call leaves the element as
    it was before, the second of two calls leaves the text the first one
    wrote. When a transform of the first chain raises, the transforms
    before it having returned, the longer chain stops there with the same
    exception, the element untouched. *)
Theorem apply_sequence (e : TextElement) (cs1 cs2 : list cleaner) :
  Text_apply e [] = (e, Ok tt) /\
  (forall e1,
     Text_apply e cs1 = (e1, Ok tt) ->
     snd (Text_apply e1 cs2) = snd (Text_apply e (cs1 ++ cs2)) /\
     (snd (Text_apply e1 cs2) = Ok tt ->
      Text_apply e1 cs2 = Text_apply e (cs1 ++ cs2)) /\
     (forall err,
        snd (Text_apply e1 cs2) = Raise err ->
        fst (Text_apply e1 cs2) = e1 /\
        fst (Text_apply e (cs1 ++ cs2)) = e)) /\
  (forall err,
     run_cleaners cs1 (VStr (text e)) = Raise err ->
     Text_apply e (cs1 ++ cs2) = (e, Raise err)) /\
  (forall front c rest outs err,
     cs1 = front ++ c :: rest ->
     outputs front (VStr (text e)) outs ->
     c (List.last outs (VStr (text e))) = Raise err ->
     Text_apply e cs1 = (e, Raise err) /\
     Text_apply e (cs1 ++ cs2) = (e, Raise err)).
Proof.
  assert (Hraise : forall err,
     run_cleaners cs1 (VStr (text e)) = Raise err ->
     Text_apply e (cs1 ++ cs2) = (e, Raise err)).
  { intros err Hrun. unfold Text_apply.
    rewrite run_cleaners_app, Hrun. reflexivity. }
  split; [| split; [| split; [exact Hraise |]]].
  - unfold Text_apply. simpl. rewrite set_text_same. reflexivity.
  - intros e1 H1. pose proof (Text_apply_cases e cs1) as Hc.
    destruct (run_cleaners cs1 (VStr (text e))) as [v | err] eqn:Hrun.
    + destruct (isinstance_str v).
      * destruct Hc as (s & -> & Hs). rewrite Hs in H1. injection H1 as <-.
        assert (H12 : run_cleaners (cs1 ++ cs2) (VStr (text e)) =
                      run_cleaners cs2 (VStr s))
          by (rewrite run_cleaners_app, Hrun; reflexivity).
        unfold Text_apply. rewrite H12. simpl.
        destruct (run_cleaners cs2 (VStr s)) as [[] |]; simpl;
          repeat split; try discriminate; reflexivity.
      * rewrite Hc in H1. discriminate.
    + rewrite Hc in H1. discriminate.
  - intros front c rest outs err Hcs Hfront Hc.
    assert (Hrun : run_cleaners cs1 (VStr (text e)) = Raise err)
      by (rewrite Hcs; eapply run_cleaners_raises; eassumption).
    split; [| apply Hraise, Hrun].
    unfold Text_apply. rewrite Hrun. reflexivity.
Qed.

(** Cleaning respects equality: the same chain applied to two elements
    that compare equal ends the same way on both, and leaves two elements
    that compare equal. *)
Theorem apply_respects_equality (a b : TextElement) (cleaners : list cleaner) :
  Text_eq a b = true ->
  snd (Text_apply a cleaners) = snd (Text_apply b cleaners) /\
  Text_eq (fst (Text_apply a cleaners)) (fst (Text_apply b cleaners)) = true.
Proof.
  intros Heq. pose proof Heq as Heq'.
  apply Text_eq_true in Heq' as (Ht & Hc & Hcl).
  unfold Text_apply. rewrite Ht.
  destruct (run_cleaners cleaners (VStr (text b))) as [[] | err]; simpl;
    try (split; [reflexivity | exact Heq]).
  split; [reflexivity |]. apply Text_eq_true. simpl. auto.
Qed.

(** ** Markdown *)

(** The markdown form keeps the text of every class but [Image] and
    [PageBreak]: two elements of such a class with the same markdown hold
    the same text. For those two classes it is the same whatever the text.
    It is never more than five characters longer than the text. *)
Theorem to_markdown_keeps_text (a b : TextElement) (t : pystr) :
  (class_of a = class_of b ->
   class_of a <> Image -> class_of a <> PageBreak ->
   to_markdown a = to_markdown b -> text a = text b) /\
  (class_of a = Image \/ class_of a = PageBreak ->
   to_markdown (set_text a t) = to_markdown a) /\
  (length (to_markdown a) <= length (text a) + 5)%nat.
Proof.
  split; [| split].
  - unfold to_markdown. intros <-.
    destruct (class_of a); intros Hi Hp Hm; try contradiction;
      try exact Hm;
      try (apply app_inv_head in Hm; try apply app_inv_tail in Hm; exact Hm).
  - unfold to_markdown. simpl. intros [-> | ->]; reflexivity.
  - unfold to_markdown.
    destruct (class_of a); rewrite ?length_app; simpl; lia.
Qed.

(** ** The type registry and the constructors *)

(** The registry holds exactly nine tags: the category of each of the
    eight classes, which resolves to that class, and the alias
    [BulletedText], which resolves to the class of [ListItem]. Any other
    tag, [CheckBox] among them, is not a key. *)
Theorem registry_tags (tag : string) :
  (forall c, TYPE_TO_TEXT_ELEMENT_MAP !! category c = Some c) /\
  (forall c, TYPE_TO_TEXT_ELEMENT_MAP !! tag = Some c ->
     category c = tag \/ (tag = "BulletedText"%string /\ c = ListItem)) /\
  (TYPE_TO_TEXT_ELEMENT_MAP !! tag = None <->
   tag <> "BulletedText"%string /\ forall c, category c <> tag) /\
  size TYPE_TO_TEXT_ELEMENT_MAP = 9%nat /\
  TYPE_TO_TEXT_ELEMENT_MAP !! "BulletedText"%string =
    TYPE_TO_TEXT_ELEMENT_MAP !! "ListItem"%string /\
  TYPE_TO_TEXT_ELEMENT_MAP !! "CheckBox"%string = None.
Proof.
  split; [intros c; apply registry_lookup; auto |].
  split; [intros c Hc; apply registry_lookup in Hc as [[-> ->] | ->]; auto |].
  split; [| repeat split].
  split.
  - intros Hnone. split.
    + intros ->. discriminate.
    + intros c <-.
      assert (Hc : TYPE_TO_TEXT_ELEMENT_MAP !! category c = Some c)
        by (apply registry_lookup; auto).
      congruence.
  - intros [Hb Hc].
    destruct (TYPE_TO_TEXT_ELEMENT_MAP !! tag) as [c |] eqn:Hl; [| reflexivity].
    apply registry_lookup in Hl as [[-> _] | ->]; [contradiction |].
    exfalso. eapply Hc. reflexivity.
Qed.

Lemma PageBreak_or_not (c : text_class) : c = PageBreak \/ c <> PageBreak.
Proof. destruct c; auto; right; discriminate. Qed.

Lemma construct_not_PageBreak (c : text_class) (s : pystr) (i : identifier)
    (co : option (list float)) (m : ElementMetadata) :
  c <> PageBreak -> construct c s i co m = Text_init c s i co m.
Proof. destruct c; intros Hc; try reflexivity. contradiction. Qed.

(** What a constructor returned can be built again from its own fields:
    the category of the element is a key of the registry, it resolves to
    the class of the element, and calling that class with the element's
    text, identifier, coordinates and metadata returns the element. This
    holds for [PageBreak] too, whose element is always the same. *)
Theorem construct_rebuild (c : text_class) (s : pystr) (i : identifier)
    (co : option (list float)) (m : ElementMetadata) (e : TextElement) :
  construct c s i co m = Ok e ->
  TYPE_TO_TEXT_ELEMENT_MAP !! category (class_of e) = Some (class_of e) /\
  construct (class_of e) (text e) (element_id (text_element e))
            (coordinates (text_element e)) (metadata (text_element e)) = Ok e.
Proof.
  intros He. split; [apply registry_lookup; auto |].
  destruct (PageBreak_or_not c) as [-> | Hc].
  - simpl in He. rewrite PageBreak_init_value in He. injection He as <-.
    simpl. apply PageBreak_init_value.
  - rewrite (construct_not_PageBreak _ _ _ _ _ Hc) in He.
    assert (Hid : exists x, element_id (text_element e) = Id x).
    { destruct i as [| x].
      - destruct (Utf8.encode s) as [bytes | err] eqn:E.
        + rewrite (Text_init_derived _ _ _ _ _ E) in He.
          injection He as <-. simpl. eauto.
        + rewrite (Text_init_raises _ _ _ _ _ E) in He. discriminate.
      - rewrite Text_init_explicit in He. injection He as <-. simpl. eauto. }
    destruct Hid as [x Hx].
    apply Text_init_fields in He as (Ht & Hcl & Hco & Hm).
    rewrite Hcl, (construct_not_PageBreak _ _ _ _ _ Hc), Hx, Text_init_explicit.
    destruct e as [[ie coe me] cle te]. simpl in *. congruence.
Qed.

(** A text element always carries a string as identifier, never the
    [NoID] marker: its dictionary holds a string under [element_id], and
    when the constructor derived it the string is 32 characters of
    [0-9a-f]. [Text.apply] keeps it. A checkbox built without identifier
    keeps the marker. *)
Theorem text_identifier_is_string (c : text_class) (s : pystr)
    (i : identifier) (co : option (list float)) (m : ElementMetadata)
    (e : TextElement) (cleaners : list cleaner) (b : bool) :
  construct c s i co m = Ok e ->
  (exists x,
     element_id (text_element e) = Id x /\
     Text_to_dict e !! "element_id"%string = Some (VStr x) /\
     element_id (text_element (fst (Text_apply e cleaners))) = Id x /\
     (i = NoID \/ c = PageBreak ->
      length x = 32%nat /\ Forall is_lower_hex x)) /\
  element_id (checkbox_element (CheckBox_init NoID co b m)) = NoID.
Proof.
  intros He. split; [| reflexivity].
  assert (Hid : exists x,
    element_id (text_element e) = Id x /\
    (i = NoID \/ c = PageBreak -> length x = 32%nat /\ Forall is_lower_hex x)).
  { destruct (PageBreak_or_not c) as [-> | Hc].
    - simpl in He. rewrite PageBreak_init_value in He. injection He as <-.
      exists (lit "5ea24028ea5addabb8f07dfff681501d").
      split; [reflexivity |]. intros _.
      rewrite <- page_break_id. apply content_id_shape.
    - rewrite (construct_not_PageBreak _ _ _ _ _ Hc) in He.
      destruct i as [| x].
      + destruct (Utf8.encode s) as [bytes | err] eqn:E.
        * rewrite (Text_init_derived _ _ _ _ _ E) in He.
          injection He as <-. eexists. split; [reflexivity |].
          intros _. apply content_id_shape.
        * rewrite (Text_init_raises _ _ _ _ _ E) in He. discriminate.
      + rewrite Text_init_explicit in He. injection He as <-.
        eexists. split; [reflexivity |].
        intros [Hi | Hp]; [discriminate | contradiction]. }
  destruct Hid as (x & Hx & Hshape). exists x.
  split; [exact Hx |].
  split; [rewrite (proj1 (Text_to_dict_lookup e)), Hx; reflexivity |].
  split; [| exact Hshape].
  rewrite (proj1 (Text_apply_frame e cleaners)). exact Hx.
Qed.

Lemma encode_ascii (s : pystr) : is_ascii s -> Utf8.encode s = Ok s.
Proof.
  induction 1 as [| c s Hc _ IH]; simpl; [reflexivity |].
  unfold Utf8.encode_cp. destruct (N.ltb_spec c 0x80); [| lia].
  simpl. rewrite IH. reflexivity.
Qed.

(** On a text of ASCII characters the constructor never raises, and the
    identifier it derives is the digest of the characters themselves, one
    byte each. *)
Theorem ascii_text_accepted (c : text_class) (s : pystr)
    (co : option (list float)) (m : ElementMetadata) :
  is_ascii s ->
  Utf8.encode s = Ok s /\
  Text_init c s NoID co m =
    Ok (mkTextElement
          (mkElement (Id (take 32 (Sha256.hexdigest (Sha256.sha256 s)))) co m)
          c s).
Proof.
  intros Hs. pose proof (encode_ascii s Hs) as E.
  split; [exact E |]. rewrite (Text_init_derived _ _ _ _ _ E). reflexivity.
Qed.

End Coverage.

(** ** Closed instances of the further properties *)

(** A dictionary with a key that is no field: [TypeError]. *)
Lemma from_dict_keys_unknown :
  exists msg,
    ElementMetadata_from_dict (F := integer_coordinates)
      {[ "page"%string := VInt 3 ]} = Raise (TypeError msg).
Proof.
  apply (proj1 (proj2 (from_dict_keys (F := integer_coordinates)
                         {[ "page"%string := VInt 3 ]}))
               "page"%string).
  - rewrite lookup_singleton_eq. eauto.
  - intros Hin. apply fields_elem in Hin as [Hk | [Hk | Hk]]; discriminate.
Defined.

Lemma page_number_dict_dom :
  dom ({[ "page_number"%string := VInt 3 ]}
         : gmap string (pyval (F := integer_coordinates)))
  ⊆ ElementMetadata_fields.
Proof.
  rewrite dom_singleton_L. intros k Hk. apply elem_of_singleton in Hk as ->.
  apply fields_elem. auto.
Defined.

(** The dictionary with the page number alone goes through [from_dict] and
    [to_dict] unchanged. *)
Lemma to_dict_from_dict_page_number :
  exists m,
    ElementMetadata_from_dict (F := integer_coordinates)
      {[ "page_number"%string := VInt 3 ]} = Ok m /\
    ElementMetadata_to_dict m = {[ "page_number"%string := VInt 3 ]}.
Proof.
  apply (to_dict_from_dict (F := integer_coordinates)
           {[ "page_number"%string := VInt 3 ]} page_number_dict_dom).
  - intros k Hk. apply lookup_singleton_Some in Hk as [_ Hv]. discriminate.
  - intros p Hp. apply lookup_singleton_Some in Hp as [Hk _]. discriminate.
Defined.

(** A record built from a string: the filename is that string. *)
Lemma metadata_filename_string :
  filename (ElementMetadata_init (F := integer_coordinates)
              (VStr (lit "a.pdf")) VNone VNone) = VStr (lit "a.pdf").
Proof.
  apply (proj1 (proj2 (proj2 (proj2
           (metadata_filename_normalised (F := integer_coordinates)
              (VStr (lit "a.pdf")) VNone VNone []))))).
  intros x. discriminate.
Defined.

(** Two records with the dictionary of the page number 3 are one record. *)
Lemma to_dict_injective_page_number :
  ElementMetadata_init (F := integer_coordinates) VNone (VInt 3) VNone =
  mkElementMetadata VNone (VInt 3) VNone.
Proof.
  apply (to_dict_injective (F := integer_coordinates)). reflexivity.
Defined.

(** An element whose text was set and the element built with that text
    have one dictionary form, and are one element. *)
Lemma Text_to_dict_injective_title :
  set_text (F := integer_coordinates)
    (mkTextElement (mkElement (Id (lit "1")) None ElementMetadata_default)
                   Title (lit "x"))
    (lit "Intro") =
  mkTextElement (mkElement (Id (lit "1")) None ElementMetadata_default)
                Title (lit "Intro").
Proof.
  apply (Text_to_dict_injective (F := integer_coordinates)). reflexivity.
Defined.

(** A checkbox built with no identifier and no coordinates: the marker and
    [None] in its dictionary. *)
Lemma element_dict_keys_checkbox :
  CheckBox_to_dict (F := integer_coordinates)
    (CheckBox_init NoID None true ElementMetadata_default)
    !! "coordinates"%string = Some VNone /\
  exists v,
    CheckBox_to_dict (F := integer_coordinates)
      (CheckBox_init NoID None true ElementMetadata_default)
      !! "element_id"%string = Some v /\
    isinstance_str v = false /\ is_None v = false.
Proof.
  pose proof (element_dict_keys (F := integer_coordinates)
                (mkTextElement (mkElement NoID None ElementMetadata_default)
                               Text [])
                (CheckBox_init NoID None true ElementMetadata_default)
                (mkElement NoID None ElementMetadata_default))
    as (_ & _ & _ & _ & Hco & _ & _ & _ & Hid).
  split; [apply Hco | apply Hid]; reflexivity.
Defined.

(** With integer coordinates equality is reflexive and symmetric. *)
Lemma equality_is_equivalence_integers :
  (forall e : TextElement (F := integer_coordinates), Text_eq e e = true) /\
  (forall a b : TextElement (F := integer_coordinates),
     Text_eq a b = Text_eq b a).
Proof.
  pose proof (equality_is_equivalence (F := integer_coordinates))
    as ([Hrefl _] & _ & Hsym & _).
  split.
  - apply Hrefl. intros x. apply Z.eqb_refl.
  - apply Hsym. intros x y. apply Z.eqb_sym.
Defined.

(** A title and a narrative text with the same text are not equal. *)
Lemma equal_elements_render_alike_classes :
  Text_eq (F := integer_coordinates)
    (mkTextElement (mkElement (Id (lit "1")) None ElementMetadata_default)
                   Title (lit "x"))
    (mkTextElement (mkElement (Id (lit "1")) None ElementMetadata_default)
                   NarrativeText (lit "x")) = false.
Proof.
  apply (proj2 (equal_elements_render_alike (F := integer_coordinates) _ _)).
  discriminate.
Defined.

(** Two calls against one: [upper] and then a cleaner that returns [None].
    The second of the two calls leaves [HI], the single call leaves [hi].
    And a chain whose second cleaner raises: the third is not called. *)
Lemma apply_sequence_failure :
  let hi :=
    mkTextElement (F := integer_coordinates)
      (mkElement (Id (lit "1")) None ElementMetadata_default) Text (lit "hi") in
  text (fst (Text_apply (set_text hi (lit "HI")) [returns VNone])) = lit "HI" /\
  text (fst (Text_apply hi ([str_cleaner upper] ++ [returns VNone]))) = lit "hi" /\
  Text_apply hi ([str_cleaner upper; raises (OtherError "boom")]
                 ++ [returns (VStr (lit "ok"))]) =
    (hi, Raise (OtherError "boom")).
Proof.
  intros hi.
  destruct (proj1 (proj2 (apply_sequence hi [str_cleaner upper] [returns VNone]))
              (set_text hi (lit "HI")) eq_refl)
    as (_ & _ & Hfail).
  destruct (Hfail (ValueError "Cleaner produced a non-string output.") eq_refl)
    as [H1 H2].
  rewrite H1, H2. split; [reflexivity |]. split; [reflexivity |].
  apply (proj2 (proj2 (proj2 (apply_sequence hi
                 [str_cleaner upper; raises (OtherError "boom")]
                 [returns (VStr (lit "ok"))])))
               [str_cleaner upper] (raises (OtherError "boom")) []
               [VStr (lit "HI")] (OtherError "boom")).
  - reflexivity.
  - apply outputs_cons; [reflexivity | apply outputs_nil].
  - reflexivity.
Defined.

(** Two elements that differ in identifier, cleaned alike. *)
Lemma apply_respects_equality_upper :
  let a :=
    mkTextElement (F := integer_coordinates)
      (mkElement (Id (lit "1")) None ElementMetadata_default) Text (lit "hi") in
  let b :=
    mkTextElement (F := integer_coordinates)
      (mkElement (Id (lit "2")) None ElementMetadata_default) Text (lit "hi") in
  snd (Text_apply a [str_cleaner upper]) = snd (Text_apply b [str_cleaner upper]) /\
  Text_eq (fst (Text_apply a [str_cleaner upper]))
          (fst (Text_apply b [str_cleaner upper])) = true.
Proof.
  intros a b.
  apply (apply_respects_equality a b [str_cleaner upper]). reflexivity.
Defined.

(** Two titles with the markdown [# Intro] hold the same text. *)
Lemma to_markdown_keeps_text_title :
  text (set_text (F := integer_coordinates)
          (mkTextElement (mkElement (Id (lit "1")) None ElementMetadata_default)
                         Title (lit "x"))
          (lit "Intro")) =
  text (mkTextElement (F := integer_coordinates)
          (mkElement (Id (lit "2")) None ElementMetadata_default)
          Title (lit "Intro")).
Proof.
  apply (proj1 (to_markdown_keeps_text (F := integer_coordinates) _ _ []));
    [reflexivity | discriminate | discriminate | reflexivity].
Defined.

(** What the tag [BulletedText] resolves to has the category [ListItem]. *)
Lemma registry_tags_alias :
  category ListItem = "BulletedText"%string \/
  ("BulletedText"%string = "BulletedText"%string /\ ListItem = ListItem).
Proof.
  apply (proj1 (proj2 (registry_tags "BulletedText")) ListItem). reflexivity.
Defined.

(** The element built from [abc] is built again from its fields. *)
Lemma construct_rebuild_abc :
  construct (F := integer_coordinates) Text (lit "abc")
    (Id (lit "ba7816bf8f01cfea414140de5dae2223")) None ElementMetadata_default =
  Ok (mkTextElement
        (mkElement (Id (lit "ba7816bf8f01cfea414140de5dae2223")) None
                   ElementMetadata_default)
        Text (lit "abc")).
Proof.
  exact (proj2 (construct_rebuild (F := integer_coordinates)
                  Text (lit "abc") NoID None ElementMetadata_default _
                  Text_of_abc)).
Defined.

(** The element built from [abc] holds a string of 32 hexadecimal
    characters as identifier. *)
Lemma text_identifier_is_string_abc :
  exists x,
    Text_to_dict (F := integer_coordinates)
      (mkTextElement
         (mkElement (Id (lit "ba7816bf8f01cfea414140de5dae2223")) None
                    ElementMetadata_default)
         Text (lit "abc")) !! "element_id"%string = Some (VStr x) /\
    length x = 32%nat /\ Forall is_lower_hex x.
Proof.
  destruct (proj1 (text_identifier_is_string (F := integer_coordinates)
                     Text (lit "abc") NoID None ElementMetadata_default _
                     [] true Text_of_abc))
    as (x & _ & Hdict & _ & Hshape).
  exists x. split; [exact Hdict |]. apply Hshape. left. reflexivity.
Defined.

Lemma ascii_abc : is_ascii (lit "abc").
Proof. repeat constructor. Defined.

(** [abc] is ASCII: it is its own encoding. *)
Lemma ascii_text_accepted_abc :
  Utf8.encode (lit "abc") = Ok (lit "abc") /\
  Text_init (F := integer_coordinates) Title (lit "abc") NoID None
            ElementMetadata_default =
  Ok (mkTextElement
        (mkElement
           (Id (take 32 (Sha256.hexdigest (Sha256.sha256 (lit "abc")))))
           None ElementMetadata_default)
        Title (lit "abc")).
Proof.
  exact (ascii_text_accepted (F := integer_coordinates) Title (lit "abc")
           None ElementMetadata_default ascii_abc).
Defined.

(** C10 fails as stated once the inherited [Text.apply] has run on one of
    two instances: the instance whose text became [x] is still a
    [PageBreak], and it is neither equal to a fresh one nor alike through
    its dictionary. *)
Lemma PageBreak_apply_breaks_equality :
  let fresh :=
    mkTextElement (F := integer_coordinates)
      (mkElement (Id (lit "5ea24028ea5addabb8f07dfff681501d")) None
                 ElementMetadata_default)
      PageBreak (lit "<PAGE BREAK>") in
  PageBreak_init None NoID None ElementMetadata_default = Ok fresh /\
  Text_apply fresh [returns (VStr (lit "x"))] = (set_text fresh (lit "x"), Ok tt) /\
  class_of (set_text fresh (lit "x")) = PageBreak /\
  Text_eq fresh (set_text fresh (lit "x")) = false /\
  Text_to_dict fresh <> Text_to_dict (set_text fresh (lit "x")).
Proof.
  intros fresh.
  split; [apply PageBreak_init_value |].
  do 3 (split; [reflexivity |]).
  intros Hd. apply (f_equal (fun d => d !! "text"%string)) in Hd.
  rewrite !Text_to_dict_text in Hd. discriminate.
Qed.
